(** * Inventory management system: a shallow embedding of
      [src/inventory_system.py] and the properties of its operations.

    The class [InventorySystem] keeps two attributes, [stock_data] and
    [logs]; its methods print to the console and read or write JSON files.
    Python values are dynamically typed, so the embedding works on a type
    [pyval] of the values that callers pass and that [json.load] produces,
    and every method is a computation in a state-and-exception monad over
    the object's attributes, the file system and the console.

    What is outside the program is modelled as follows.
    - The [json] module is a parameter, the class [JsonLib].
    - The file system is a finite map from paths to nodes; a path is a
      text, and a node is a text file or the exception that opening or
      reading it raises.
    - [datetime.now()] is an argument of the method that reads it.
    - [print] appends a line to the console and does not fail.
    - An [int] is an integer of any size and a [float] is a binary64
      number.  Writing an [int] of more than 4300 digits as a text raises
      [ValueError], as the interpreter does by default.  The other limits
      of the interpreter (memory, recursion depth) are left out. *)

From Stdlib Require Import ZArith String Ascii List Bool Lia Sorted.
From Stdlib Require Import Floats.PrimFloat Floats.SpecFloat Floats.FloatOps.
From stdpp Require Import base option list gmap strings pretty.

Local Open Scope Z_scope.

#[local] Set Warnings "-register-all".

(** ** Python values *)

(** The values of the types [NoneType], [bool], [int], [float], [str],
    [list] and [dict].  A [dict] is kept as an association list in
    insertion order, the order Python iterates it in; the keys that occur
    in this program are all [str]. *)
Inductive pyval : Type :=
| PyNone
| PyBool (b : bool)
| PyInt (z : Z)
| PyFloat (f : float)
| PyStr (s : string)
| PyList (l : list pyval)
| PyDict (d : list (string * pyval)).

(** The exception classes that the program can meet, and their bases. *)
Inductive exc : Type :=
| TypeError
| AttributeError
| KeyError
| OverflowError
| ValueError
| JSONDecodeError
| UnicodeDecodeError
| OSError
| FileNotFoundError
| PermissionError
| IsADirectoryError.

Definition exc_eqb (a b : exc) : bool :=
  match a, b with
  | TypeError, TypeError | AttributeError, AttributeError
  | KeyError, KeyError | OverflowError, OverflowError
  | ValueError, ValueError | JSONDecodeError, JSONDecodeError
  | UnicodeDecodeError, UnicodeDecodeError | OSError, OSError
  | FileNotFoundError, FileNotFoundError
  | PermissionError, PermissionError
  | IsADirectoryError, IsADirectoryError => true
  | _, _ => false
  end.

(** The base class of a class, when it is one of the classes above. *)
Definition exc_base (e : exc) : option exc :=
  match e with
  | JSONDecodeError | UnicodeDecodeError => Some ValueError
  | FileNotFoundError | PermissionError | IsADirectoryError => Some OSError
  | _ => None
  end.

(** [exc_isinstance e c]: an exception of class [e] is caught by
    [except c].  [IOError] is an alias of [OSError]. *)
Definition exc_isinstance (e c : exc) : bool :=
  exc_eqb e c ||
  match exc_base e with
  | Some b => exc_eqb b c
  | None => false
  end.

Definition IOError : exc := OSError.

(** ** Built-in operations on values *)

(** [isinstance(x, str)] *)
Definition isinstance_str (x : pyval) : bool :=
  match x with PyStr _ => true | _ => false end.

(** [isinstance(x, int)]; [bool] is a subclass of [int]. *)
Definition isinstance_int (x : pyval) : bool :=
  match x with PyInt _ | PyBool _ => true | _ => false end.

(** The integer value of an instance of [int] ([True] is 1, [False] is 0). *)
Definition py_int (x : pyval) : option Z :=
  match x with
  | PyInt z => Some z
  | PyBool b => Some (Z.b2z b)
  | _ => None
  end.

(** Truth value, as [not x] and [if x] use it. *)
Definition truthy (x : pyval) : bool :=
  match x with
  | PyNone => false
  | PyBool b => b
  | PyInt z => negb (z =? 0)
  | PyFloat f => negb (PrimFloat.eqb f PrimFloat.zero)
  | PyStr s => negb (String.eqb s EmptyString)
  | PyList l => match l with [] => false | _ => true end
  | PyDict d => match d with [] => false | _ => true end
  end.

(** Conversion of an [int] to [float], rounding to nearest even; [None]
    when the integer is too large ([OverflowError]). *)
Definition float_of_int (z : Z) : option float :=
  match binary_normalize prec emax z 0 false with
  | S754_infinity _ => None
  | sf => Some (SF2Prim sf)
  end.

(** Exact comparison of a [float] with an [int]; [None] for a NaN, which
    compares false with everything. *)
Definition float_compare_int (f : float) (z : Z) : option comparison :=
  match Prim2SF f with
  | S754_nan => None
  | S754_infinity s => Some (if s then Lt else Gt)
  | S754_zero _ => Some (0 ?= z)
  | S754_finite s m e =>
      let mz := if s then Z.neg m else Z.pos m in
      Some (if 0 <=? e then (mz * 2 ^ e ?= z) else (mz ?= z * 2 ^ (- e)))
  end.

(** The default of [sys.get_int_max_str_digits()]. *)
Definition max_str_digits : Z := 4300.

(** The interpreter writes the integer [z] in decimal: it has at most
    [max_str_digits] digits.  Otherwise [str], an f-string and [json]
    raise [ValueError]. *)
(** The least integer that is too long, [10 ** 4300], with its 4301
    digits. *)
Definition int_text_limit : Z := Eval vm_compute in 10 ^ max_str_digits.

Definition int_text_ok (z : Z) : bool := Z.abs z <? int_text_limit.
Arguments int_text_ok : simpl never.

(** [f"{v}"] and [f"{v:5}"] can write the value [v] when it is no integer
    with too many digits; a [bool] is written as [True], [False], 1 or
    0. *)
Definition text_ok (v : pyval) : bool :=
  match v with
  | PyInt z => int_text_ok z
  | _ => true
  end.

(** ** Dictionaries *)

Definition pydict : Type := list (string * pyval).

Fixpoint dict_lookup (k : string) (d : pydict) : option pyval :=
  match d with
  | [] => None
  | (k', v) :: d' => if String.eqb k k' then Some v else dict_lookup k d'
  end.

(** [d[k] = v]: an existing key keeps its place, a new key goes last. *)
Fixpoint dict_set (k : string) (v : pyval) (d : pydict) : pydict :=
  match d with
  | [] => [(k, v)]
  | (k', v') :: d' =>
      if String.eqb k k' then (k, v) :: d' else (k', v') :: dict_set k v d'
  end.

(** [del d[k]]: the keys of a [dict] differ, so this removes the one
    binding of [k]. *)
Fixpoint dict_del (k : string) (d : pydict) : pydict :=
  match d with
  | [] => []
  | (k', v') :: d' =>
      if String.eqb k k' then dict_del k d' else (k', v') :: dict_del k d'
  end.

Definition dict_keys (d : pydict) : list string := map fst d.

(** ** The object, its environment and the monad of the methods *)

(** [datetime.now()] is read from the environment; the methods that use it
    take the reading as an argument. *)
Definition datetime : Type := Z.

(** The log message [f"{datetime.now()}: Added {qty} of {item}"], kept as
    its three interpolated parts. *)
Record log_entry : Type := LogAdded {
  log_time : datetime;
  log_qty : pyval;
  log_item : string
}.

(** One [print] call; the constructor says which message, the arguments
    are the interpolated values. *)
Inductive out_line : Type :=
| ErrItemNonEmptyString
| ErrQuantityPositiveInteger
| OutLog (m : log_entry)
| ErrInvalidItemOrQuantityType
| ErrQuantityPositive
| WarnItemNotFound (item : string)
| InfoItemReachedZero (item : string)
| ErrItemNotFound (e : exc)
| ErrInvalidOperation (e : exc)
| ErrItemString
| OutLoaded (file : string)
| WarnFileNotFound (file : string)
| ErrInvalidJSON (e : exc)
| ErrCouldNotRead (e : exc)
| OutSaved (file : string)
| ErrCouldNotWrite (e : exc)
| OutRuleTop
| OutItemsReport
| OutRule
| OutInventoryEmpty
| OutReportLine (item : string) (qty : pyval)
| OutRuleBottom
| ErrThreshold.

(** A path of the file system holds a text file, or a node that raises an
    exception; a path that is not in the map does not exist and can be
    created.  [open] raises nothing but an [OSError]: a node [FFail e]
    with an [OSError] [e] is a path that cannot be opened, for reading or
    for writing (a directory, a file without permission, a path below a
    missing directory); with another [e] it is a file that opens and
    whose reading raises [e] (bytes that are no UTF-8 text, a document
    that [json.load] cannot take). *)
Inductive fnode : Type :=
| FText (content : string)
| FFail (e : exc).

(** The attributes of the [InventorySystem] object, and the part of the
    process environment that its methods touch. *)
Record state : Type := State {
  stock_data : pyval;
  logs : list log_entry;
  files : gmap string fnode;
  console : list out_line
}.

Definition set_stock_data (v : pyval) (s : state) : state :=
  State v (logs s) (files s) (console s).
Definition set_logs (l : list log_entry) (s : state) : state :=
  State (stock_data s) l (files s) (console s).
Definition set_files (fs : gmap string fnode) (s : state) : state :=
  State (stock_data s) (logs s) fs (console s).
Definition set_console (c : list out_line) (s : state) : state :=
  State (stock_data s) (logs s) (files s) c.

(** [InventorySystem()]: [__init__] in the environment [fs], [out]. *)
Definition init (fs : gmap string fnode) (out : list out_line) : state :=
  State (PyDict []) [] fs out.

(** How a call ends: it returns a value or an exception leaves it. *)
Inductive outcome (A : Type) : Type :=
| Return (a : A)
| Raise (e : exc).
Arguments Return {A} a.
Arguments Raise {A} e.

Definition M (A : Type) : Type := state -> outcome A * state.

Definition ret {A} (a : A) : M A := fun s => (Return a, s).
Definition raise {A} (e : exc) : M A := fun s => (Raise e, s).
Definition bind {A B} (m : M A) (k : A -> M B) : M B :=
  fun s =>
    match m s with
    | (Return a, s') => k a s'
    | (Raise e, s') => (Raise e, s')
    end.
Definition lift {A} (o : outcome A) : M A := fun s => (o, s).
Definition gets {A} (f : state -> A) : M A := fun s => (Return (f s), s).
Definition modify (f : state -> state) : M unit := fun s => (Return tt, f s).
Definition print (l : out_line) : M unit :=
  modify (fun s => set_console (console s ++ [l]) s).

Declare Scope py_scope.
Delimit Scope py_scope with py.
Notation "x <~ m ;; k" := (bind m (fun x => k))
  (at level 100, m at next level, right associativity) : py_scope.
Notation "m ;;; k" := (bind m (fun _ => k))
  (at level 100, right associativity) : py_scope.

(** [try: body except c1: h1 except c2: h2 ...]: the first clause whose
    class the exception is an instance of runs, from the state the body
    left; with no such clause the exception goes on. *)
Fixpoint handle {A} (hs : list (exc * (exc -> M A))) (e : exc) : M A :=
  match hs with
  | [] => raise e
  | (c, h) :: hs' => if exc_isinstance e c then h e else handle hs' e
  end.

Definition try_except {A} (body : M A) (hs : list (exc * (exc -> M A))) : M A :=
  fun s =>
    match body s with
    | (Return a, s') => (Return a, s')
    | (Raise e, s') => handle hs e s'
    end.

(** ** Operations on [self.stock_data] *)

(** [x.get(k, default)]: a method of [dict] only. *)
Definition py_get (x : pyval) (k : string) (dflt : pyval) : outcome pyval :=
  match x with
  | PyDict d => Return (default dflt (dict_lookup k d))
  | _ => Raise AttributeError
  end.

(** [x.items()]: a method of [dict] only. *)
Definition py_items (x : pyval) : outcome pydict :=
  match x with
  | PyDict d => Return d
  | _ => Raise AttributeError
  end.

(** [s1 in s2] on strings: [s1] is a substring of [s2]. *)
Fixpoint is_substring (s1 s2 : string) : bool :=
  String.prefix s1 s2 ||
  match s2 with
  | EmptyString => false
  | String _ s2' => is_substring s1 s2'
  end.

(** [k in x] for a string [k]. *)
Definition py_contains (x : pyval) (k : string) : outcome bool :=
  match x with
  | PyDict d => Return (match dict_lookup k d with
                        | Some _ => true
                        | None => false
                        end)
  | PyList l =>
      Return (existsb (fun v => match v with
                                | PyStr s => String.eqb k s
                                | _ => false
                                end) l)
  | PyStr s => Return (is_substring k s)
  | _ => Raise TypeError
  end.

(** [x[k]] for a string [k]. *)
Definition py_getitem (x : pyval) (k : string) : outcome pyval :=
  match x with
  | PyDict d =>
      match dict_lookup k d with
      | Some v => Return v
      | None => Raise KeyError
      end
  | _ => Raise TypeError
  end.

(** [x[k] = v] for a string [k]. *)
Definition py_setitem (x : pyval) (k : string) (v : pyval) : outcome pyval :=
  match x with
  | PyDict d => Return (PyDict (dict_set k v d))
  | _ => Raise TypeError
  end.

(** [del x[k]] for a string [k]. *)
Definition py_delitem (x : pyval) (k : string) : outcome pyval :=
  match x with
  | PyDict d =>
      match dict_lookup k d with
      | Some _ => Return (PyDict (dict_del k d))
      | None => Raise KeyError
      end
  | _ => Raise TypeError
  end.

(** [v + q] and [v - q] for an integer [q]. *)
Definition py_add_int (v : pyval) (q : Z) : outcome pyval :=
  match v with
  | PyInt z => Return (PyInt (z + q))
  | PyBool b => Return (PyInt (Z.b2z b + q))
  | PyFloat f =>
      match float_of_int q with
      | Some g => Return (PyFloat (PrimFloat.add f g))
      | None => Raise OverflowError
      end
  | _ => Raise TypeError
  end.

Definition py_sub_int (v : pyval) (q : Z) : outcome pyval :=
  match v with
  | PyInt z => Return (PyInt (z - q))
  | PyBool b => Return (PyInt (Z.b2z b - q))
  | PyFloat f =>
      match float_of_int q with
      | Some g => Return (PyFloat (PrimFloat.sub f g))
      | None => Raise OverflowError
      end
  | _ => Raise TypeError
  end.

(** [v < t] and [v <= t] for an integer [t]. *)
Definition py_lt_int (v : pyval) (t : Z) : outcome bool :=
  match v with
  | PyInt z => Return (z <? t)
  | PyBool b => Return (Z.b2z b <? t)
  | PyFloat f =>
      Return (match float_compare_int f t with Some Lt => true | _ => false end)
  | _ => Raise TypeError
  end.

Definition py_le_int (v : pyval) (t : Z) : outcome bool :=
  match v with
  | PyInt z => Return (z <=? t)
  | PyBool b => Return (Z.b2z b <=? t)
  | PyFloat f =>
      Return (match float_compare_int f t with
              | Some Lt | Some Eq => true
              | _ => false
              end)
  | _ => Raise TypeError
  end.

(** The string of a [str] and the integer of an [int]; the methods use
    them only behind the [isinstance] checks. *)
Definition str_value (x : pyval) : string :=
  match x with PyStr s => s | _ => EmptyString end.
Definition int_value (x : pyval) : Z := default 0 (py_int x).

(** ** The [json] module and the file system *)

(** [json.dump] and [json.load] belong to Python's library.  [json_dumps]
    is the text that [json.dump(v, f, indent=2)] writes: the document, or
    the part of it that is written when [json.dump] raises, and
    [json_dump_error] is the exception that it then raises (a
    [ValueError] for an integer of too many digits).  [json_loads] is the
    value that [json.load] reads from a text, [None] when the text is not
    a JSON document ([json.JSONDecodeError]).  A text that [json.dump]
    left unfinished is not read back as the value. *)
Class JsonLib : Type := {
  json_dumps : pyval -> string;
  json_dump_error : pyval -> option exc;
  json_loads : string -> option pyval;
  json_unfinished : forall v e,
    json_dump_error v = Some e -> json_loads (json_dumps v) <> Some v
}.

(** [open(file, 'r', encoding='utf-8')] followed by reading the text. *)
Definition open_read (file : string) : M string :=
  fun s =>
    match files s !! file with
    | None => (Raise FileNotFoundError, s)
    | Some (FText content) => (Return content, s)
    | Some (FFail e) => (Raise e, s)
    end.

(** [open] fails on the node: the exception of the node is an
    [OSError]. *)
Definition open_fails (e : exc) : bool := exc_isinstance e OSError.

(** [open(file, 'w', encoding='utf-8')]: creates or truncates the file. *)
Definition open_write (file : string) : M unit :=
  fun s =>
    match files s !! file with
    | Some (FFail e) =>
        if open_fails e then (Raise e, s)
        else (Return tt, set_files (<[file := FText EmptyString]> (files s)) s)
    | _ => (Return tt, set_files (<[file := FText EmptyString]> (files s)) s)
    end.

(** Writing [text] to the file opened by [open_write], then closing it. *)
Definition file_write (file : string) (text : string) : M unit :=
  modify (fun s => set_files (<[file := FText text]> (files s)) s).

(** ** The methods of [InventorySystem] *)

Local Open Scope py_scope.

(** [f"{datetime.now()}: Added {qty} of {item}"] *)
Definition format_log (now : datetime) (qty : pyval) (item : string)
  : outcome log_entry :=
  if text_ok qty then Return (LogAdded now qty item) else Raise ValueError.

Definition add_item (item qty : pyval) (now : datetime) : M bool :=
  if negb (truthy item) || negb (isinstance_str item) then
    print ErrItemNonEmptyString ;;;
    ret false
  else if negb (isinstance_int qty) || (int_value qty <=? 0) then
    print ErrQuantityPositiveInteger ;;;
    ret false
  else
    sd <~ gets stock_data ;;
    old <~ lift (py_get sd (str_value item) (PyInt 0)) ;;
    new <~ lift (py_add_int old (int_value qty)) ;;
    sd' <~ lift (py_setitem sd (str_value item) new) ;;
    modify (set_stock_data sd') ;;;
    log_message <~ lift (format_log now qty (str_value item)) ;;
    modify (fun s => set_logs (logs s ++ [log_message]) s) ;;;
    print (OutLog log_message) ;;;
    ret true.

(** The defaults of [add_item(self, item=None, qty=0)]. *)
Definition add_item_default_item : pyval := PyNone.
Definition add_item_default_qty : pyval := PyInt 0.

Definition remove_item (item qty : pyval) : M bool :=
  if negb (isinstance_str item) || negb (isinstance_int qty) then
    print ErrInvalidItemOrQuantityType ;;;
    ret false
  else if int_value qty <=? 0 then
    print ErrQuantityPositive ;;;
    ret false
  else
    try_except
      (sd <~ gets stock_data ;;
       found <~ lift (py_contains sd (str_value item)) ;;
       if negb found then
         print (WarnItemNotFound (str_value item)) ;;;
         ret false
       else
         old <~ lift (py_getitem sd (str_value item)) ;;
         new <~ lift (py_sub_int old (int_value qty)) ;;
         sd' <~ lift (py_setitem sd (str_value item) new) ;;
         modify (set_stock_data sd') ;;;
         sd1 <~ gets stock_data ;;
         cur <~ lift (py_getitem sd1 (str_value item)) ;;
         le0 <~ lift (py_le_int cur 0) ;;
         (if le0 : bool then
            print (InfoItemReachedZero (str_value item)) ;;;
            sd2 <~ lift (py_delitem sd1 (str_value item)) ;;
            modify (set_stock_data sd2)
          else ret tt) ;;;
         ret true)
      [ (KeyError, fun e => print (ErrItemNotFound e) ;;; ret false);
        (TypeError, fun e => print (ErrInvalidOperation e) ;;; ret false) ].

Definition get_qty (item : pyval) : M pyval :=
  if negb (isinstance_str item) then
    print ErrItemString ;;;
    ret (PyInt 0)
  else
    sd <~ gets stock_data ;;
    lift (py_get sd (str_value item) (PyInt 0)).

Definition load_data `{JsonLib} (file : string) : M bool :=
  try_except
    (text <~ open_read file ;;
     parsed <~ lift (match json_loads text with
                     | Some v => Return v
                     | None => Raise JSONDecodeError
                     end) ;;
     modify (set_stock_data parsed) ;;;
     print (OutLoaded file) ;;;
     ret true)
    [ (FileNotFoundError, fun _ =>
         print (WarnFileNotFound file) ;;;
         modify (set_stock_data (PyDict [])) ;;;
         ret false);
      (JSONDecodeError, fun e => print (ErrInvalidJSON e) ;;; ret false);
      (IOError, fun e => print (ErrCouldNotRead e) ;;; ret false) ].

Definition save_data `{JsonLib} (file : string) : M bool :=
  try_except
    (open_write file ;;;
     sd <~ gets stock_data ;;
     file_write file (json_dumps sd) ;;;
     match json_dump_error sd with
     | Some e => raise e
     | None => ret tt
     end ;;;
     print (OutSaved file) ;;;
     ret true)
    [ (IOError, fun e => print (ErrCouldNotWrite e) ;;; ret false) ].

(** The default of [load_data] and [save_data]. *)
Definition default_file : string := "inventory.json".

(** [sorted(d.items())]: the keys of a [dict] differ, so the pairs are
    ordered by their keys alone. *)
Fixpoint insert_sorted (kv : string * pyval) (l : pydict) : pydict :=
  match l with
  | [] => [kv]
  | kv' :: l' =>
      if String.ltb (fst kv) (fst kv') then kv :: l
      else kv' :: insert_sorted kv l'
  end.

Definition sorted_items (d : pydict) : pydict :=
  fold_left (fun acc kv => insert_sorted kv acc) d [].

(** [f"{item:20} -> {qty:5}"]: a width is a valid format for numbers and
    strings, not for [None], a [list] or a [dict]; an integer of too many
    digits raises [ValueError]. *)
Definition format_report_line (item : string) (qty : pyval) : outcome out_line :=
  match qty with
  | PyNone | PyList _ | PyDict _ => Raise TypeError
  | _ => if text_ok qty then Return (OutReportLine item qty)
         else Raise ValueError
  end.

Fixpoint print_report_lines (items : pydict) : M unit :=
  match items with
  | [] => ret tt
  | (item, qty) :: rest =>
      line <~ lift (format_report_line item qty) ;;
      print line ;;;
      print_report_lines rest
  end.

Definition print_data : M unit :=
  print OutRuleTop ;;;
  print OutItemsReport ;;;
  print OutRule ;;;
  sd <~ gets stock_data ;;
  (if negb (truthy sd) then
     print OutInventoryEmpty
   else
     items <~ lift (py_items sd) ;;
     print_report_lines (sorted_items items)) ;;;
  print OutRuleBottom.

(** The loop of [check_low_items]; [result] is the list built so far. *)
Fixpoint low_items_loop (items : pydict) (threshold : Z) (result : list string)
  : outcome (list string) :=
  match items with
  | [] => Return result
  | (item, qty) :: rest =>
      match py_lt_int qty threshold with
      | Return true => low_items_loop rest threshold (result ++ [item])
      | Return false => low_items_loop rest threshold result
      | Raise e => Raise e
      end
  end.

Definition check_low_items (threshold : pyval) : M (list string) :=
  if negb (isinstance_int threshold) || (int_value threshold <? 0) then
    print ErrThreshold ;;;
    ret []
  else
    sd <~ gets stock_data ;;
    items <~ lift (py_items sd) ;;
    lift (low_items_loop items (int_value threshold) []).

(** The default of [check_low_items(self, threshold=5)]. *)
Definition default_threshold : pyval := PyInt 5.

(** ** Sequences of calls *)

(** A call of a public method with its arguments. *)
Inductive op : Type :=
| OpAddItem (item qty : pyval) (now : datetime)
| OpRemoveItem (item qty : pyval)
| OpGetQty (item : pyval)
| OpLoadData (file : string)
| OpSaveData (file : string)
| OpPrintData
| OpCheckLowItems (threshold : pyval).

(** The call, with its result as a Python value. *)
Definition call `{JsonLib} (o : op) : M pyval :=
  match o with
  | OpAddItem item qty now => b <~ add_item item qty now ;; ret (PyBool b)
  | OpRemoveItem item qty => b <~ remove_item item qty ;; ret (PyBool b)
  | OpGetQty item => get_qty item
  | OpLoadData file => b <~ load_data file ;; ret (PyBool b)
  | OpSaveData file => b <~ save_data file ;; ret (PyBool b)
  | OpPrintData => print_data ;;; ret PyNone
  | OpCheckLowItems threshold =>
      l <~ check_low_items threshold ;; ret (PyList (map PyStr l))
  end.

(** The state after a sequence of calls; a caller that catches what a call
    raises goes on from the state the call left. *)
Fixpoint run `{JsonLib} (ops : list op) (s : state) : state :=
  match ops with
  | [] => s
  | o :: ops' => run ops' (snd (call o s))
  end.

Local Close Scope py_scope.

(** ** A JSON codec for concrete runs

    An instance of [JsonLib] on a fragment of JSON: objects, arrays,
    strings with the escapes of the quote and the backslash, integers,
    [true], [false] and [null]; [loads] rejects what is outside the
    fragment.  The theorems below hold for every [JsonLib]; this one
    serves to run the methods on concrete files. *)
Module MiniJson.

Definition dquote : ascii := "034"%char.
Definition backslash : ascii := "092"%char.
Definition newline : ascii := "010"%char.

Definition str1 (c : ascii) : string := String c EmptyString.

Definition is_ws (c : ascii) : bool :=
  (Ascii.eqb c " " || Ascii.eqb c newline ||
   Ascii.eqb c "009" || Ascii.eqb c "013")%char.

Definition digit_of (c : ascii) : option Z :=
  let n := Z.of_nat (nat_of_ascii c) in
  if (48 <=? n) && (n <=? 57) then Some (n - 48) else None.

(** *** Writing *)

Fixpoint quote_chars (s : string) : string :=
  match s with
  | EmptyString => EmptyString
  | String c s' =>
      if Ascii.eqb c dquote || Ascii.eqb c backslash
      then String backslash (String c (quote_chars s'))
      else String c (quote_chars s')
  end.

Definition quote (s : string) : string :=
  String dquote (quote_chars s +:+ str1 dquote).

Definition int_text (z : Z) : string := pretty z.

Fixpoint zeros (n : nat) : string :=
  match n with
  | O => EmptyString
  | S n' => String "0" (zeros n')
  end.

(** The exact decimal expansion of [m * 2 ^ e]. *)
Definition finite_text (m : positive) (e : Z) : string :=
  if 0 <=? e then int_text (Z.pos m * 2 ^ e) +:+ ".0"
  else
    let k := - e in
    let n := Z.pos m * 5 ^ k in
    let frac := int_text (n mod 10 ^ k) in
    int_text (n / 10 ^ k) +:+ "." +:+
    zeros (Z.to_nat k - String.length frac) +:+ frac.

Definition float_text (f : float) : string :=
  match Prim2SF f with
  | S754_nan => "NaN"
  | S754_infinity s => if s then "-Infinity" else "Infinity"
  | S754_zero s => if s then "-0.0" else "0.0"
  | S754_finite s m e =>
      (if s then "-" else EmptyString) +:+ finite_text m e
  end.

Fixpoint spaces (n : nat) : string :=
  match n with
  | O => EmptyString
  | S n' => String " " (spaces n')
  end.

Definition line_break (depth : nat) : string :=
  String newline (spaces (2 * depth)).

(** Every integer in the value can be written as a text. *)
Fixpoint small_ints (v : pyval) : bool :=
  match v with
  | PyInt z => int_text_ok z
  | PyList l => forallb small_ints l
  | PyDict d => forallb (fun kv => small_ints (snd kv)) d
  | _ => true
  end.

Definition is_container (v : pyval) : bool :=
  match v with
  | PyList _ | PyDict _ => true
  | _ => false
  end.

(** What [json.dump(v, f, indent=2)] writes at nesting depth [depth]: the
    document, or its beginning when an integer has too many digits.  The
    encoder writes the text in pieces; a list holds back the separator
    until the next element is a text, a dictionary writes the key before
    it turns to the value. *)
Fixpoint dumps_at (depth : nat) (v : pyval) : string :=
  match v with
  | PyNone => "null"
  | PyBool b => if b then "true" else "false"
  | PyInt z => if int_text_ok z then int_text z else EmptyString
  | PyFloat f => float_text f
  | PyStr s => quote s
  | PyList l =>
      match l with
      | [] => "[]"
      | _ :: _ =>
          (fix elements (buf : string) (l : list pyval) : string :=
             match l with
             | [] => line_break depth +:+ "]"
             | y :: l' =>
                 if small_ints y then
                   buf +:+ dumps_at (S depth) y +:+
                   elements ("," +:+ line_break (S depth)) l'
                 else if is_container y then buf +:+ dumps_at (S depth) y
                 else EmptyString
             end) ("[" +:+ line_break (S depth)) l
      end
  | PyDict d =>
      match d with
      | [] => "{}"
      | _ :: _ =>
          "{" +:+ line_break (S depth) +:+
          (fix members (first : bool) (d : list (string * pyval)) : string :=
             match d with
             | [] => line_break depth +:+ "}"
             | (k, y) :: d' =>
                 (if first then EmptyString
                  else "," +:+ line_break (S depth)) +:+
                 quote k +:+ ": " +:+ dumps_at (S depth) y +:+
                 (if small_ints y then members false d' else EmptyString)
             end) true d
      end
  end.

Definition dumps (v : pyval) : string := dumps_at 0 v.

(** [json.dump] raises when an integer has too many digits. *)
Definition dump_error (v : pyval) : option exc :=
  if small_ints v then None else Some ValueError.

(** *** Reading *)

Fixpoint skip_ws (s : string) : string :=
  match s with
  | String c s' => if is_ws c then skip_ws s' else s
  | EmptyString => s
  end.

(** The string after the prefix [p], when [s] starts with it. *)
Fixpoint expect (p s : string) : option string :=
  match p, s with
  | EmptyString, _ => Some s
  | String a p', String b s' =>
      if Ascii.eqb a b then expect p' s' else None
  | String _ _, EmptyString => None
  end.

Fixpoint read_digits (s : string) (acc : Z) : Z * string :=
  match s with
  | String c s' =>
      match digit_of c with
      | Some d => read_digits s' (10 * acc + d)
      | None => (acc, s)
      end
  | EmptyString => (acc, s)
  end.

(** An integer without a fraction or an exponent after it. *)
Definition read_nat (s : string) : option (Z * string) :=
  match s with
  | String c _ =>
      match digit_of c with
      | Some _ =>
          let '(n, rest) := read_digits s 0 in
          match rest with
          | String c' _ =>
              if (Ascii.eqb c' "." || Ascii.eqb c' "e" || Ascii.eqb c' "E")%char
              then None else Some (n, rest)
          | EmptyString => Some (n, rest)
          end
      | None => None
      end
  | EmptyString => None
  end.

(** The characters up to the closing quote. *)
Fixpoint read_string (s : string) : option (string * string) :=
  match s with
  | EmptyString => None
  | String c s' =>
      if Ascii.eqb c dquote then Some (EmptyString, s')
      else if Ascii.eqb c backslash then
        match s' with
        | String c' s'' =>
            if Ascii.eqb c' dquote || Ascii.eqb c' backslash then
              match read_string s'' with
              | Some (t, rest) => Some (String c' t, rest)
              | None => None
              end
            else None
        | EmptyString => None
        end
      else
        match read_string s' with
        | Some (t, rest) => Some (String c t, rest)
        | None => None
        end
  end.

Fixpoint read_value (fuel : nat) (s : string) {struct fuel}
  : option (pyval * string) :=
  match fuel with
  | O => None
  | S n =>
      match skip_ws s with
      | EmptyString => None
      | String c rest =>
          if Ascii.eqb c "n" then
            option_map (pair PyNone) (expect "ull" rest)
          else if Ascii.eqb c "t" then
            option_map (pair (PyBool true)) (expect "rue" rest)
          else if Ascii.eqb c "f" then
            option_map (pair (PyBool false)) (expect "alse" rest)
          else if Ascii.eqb c dquote then
            match read_string rest with
            | Some (t, rest') => Some (PyStr t, rest')
            | None => None
            end
          else if Ascii.eqb c "-" then
            match read_nat rest with
            | Some (z, rest') => Some (PyInt (- z), rest')
            | None => None
            end
          else if Ascii.eqb c "[" then
            match skip_ws rest with
            | String "]" rest' => Some (PyList [], rest')
            | _ => read_elements n rest []
            end
          else if Ascii.eqb c "{" then
            match skip_ws rest with
            | String "}" rest' => Some (PyDict [], rest')
            | _ => read_members n rest []
            end
          else
            match read_nat (String c rest) with
            | Some (z, rest') => Some (PyInt z, rest')
            | None => None
            end
      end
  end
with read_elements (fuel : nat) (s : string) (acc : list pyval) {struct fuel}
  : option (pyval * string) :=
  match fuel with
  | O => None
  | S n =>
      match read_value n s with
      | Some (v, rest) =>
          match skip_ws rest with
          | String "," rest' => read_elements n rest' (acc ++ [v])
          | String "]" rest' => Some (PyList (acc ++ [v]), rest')
          | _ => None
          end
      | None => None
      end
  end
with read_members (fuel : nat) (s : string) (acc : pydict) {struct fuel}
  : option (pyval * string) :=
  match fuel with
  | O => None
  | S n =>
      match skip_ws s with
      | String c rest =>
          if Ascii.eqb c dquote then
            match read_string rest with
            | Some (k, rest1) =>
                match skip_ws rest1 with
                | String ":" rest2 =>
                    match read_value n rest2 with
                    | Some (v, rest3) =>
                        match skip_ws rest3 with
                        | String "," rest4 =>
                            read_members n rest4 (dict_set k v acc)
                        | String "}" rest4 =>
                            Some (PyDict (dict_set k v acc), rest4)
                        | _ => None
                        end
                    | None => None
                    end
                | _ => None
                end
            | None => None
            end
          else None
      | EmptyString => None
      end
  end.

(** [json.loads]: one value, with nothing but white space after it; a
    numeral of too many digits is outside the fragment. *)
Definition loads (s : string) : option pyval :=
  match read_value (S (String.length s)) s with
  | Some (v, rest) =>
      match skip_ws rest with
      | EmptyString => if small_ints v then Some v else None
      | _ => None
      end
  | None => None
  end.

Definition lib : JsonLib.
Proof.
  refine {| json_dumps := dumps;
            json_dump_error := dump_error;
            json_loads := loads |}.
  intros v e Herr Hread. unfold dump_error in Herr. unfold loads in Hread.
  destruct (read_value _ _) as [[v' rest]|]; [|discriminate].
  destruct (skip_ws rest); [|discriminate].
  destruct (small_ints v') eqn:Hsmall; [|discriminate].
  injection Hread as ->. rewrite Hsmall in Herr. discriminate.
Defined.

End MiniJson.

(** ** Predicates on arguments and on the mapping *)

(** [item] is a non-empty text. *)
Definition is_nonempty_text (item : pyval) : bool :=
  match item with
  | PyStr name => negb (String.eqb name EmptyString)
  | _ => false
  end.

(** [qty] is a positive integer, a value of type [int] proper. *)
Definition is_positive_integer (qty : pyval) : bool :=
  match qty with
  | PyInt z => 0 <? z
  | _ => false
  end.

(** [qty] is a positive instance of [int]: as above, or [True]. *)
Definition is_positive_int_instance (qty : pyval) : bool :=
  match py_int qty with
  | Some z => 0 <? z
  | None => false
  end.

(** [threshold] is a non-negative integer, a value of type [int] proper. *)
Definition is_nonnegative_integer (threshold : pyval) : bool :=
  match threshold with
  | PyInt z => 0 <=? z
  | _ => false
  end.

(** [threshold] is a non-negative instance of [int]: as above, or a
    [bool]. *)
Definition is_nonnegative_int_instance (threshold : pyval) : bool :=
  match py_int threshold with
  | Some z => 0 <=? z
  | None => false
  end.

(** Every value of the dictionary is an [int] proper. *)
Definition integer_values (d : pydict) : Prop :=
  forall k v, (k, v) ∈ d -> exists z, v = PyInt z.

(** The mapping is a [dict] whose values are all positive integers. *)
Definition positive_stock (sd : pyval) : bool :=
  match sd with
  | PyDict d => forallb (fun kv => is_positive_integer (snd kv)) d
  | _ => false
  end.

(** The mapping is a [dict] whose values are all instances of [int]. *)
Definition int_stock (sd : pyval) : bool :=
  match sd with
  | PyDict d => forallb (fun kv => isinstance_int (snd kv)) d
  | _ => false
  end.

(** The mapping is a [dict] whose values are all instances of [int] of at
    most 4300 digits. *)
Definition small_stock (sd : pyval) : bool :=
  match sd with
  | PyDict d =>
      forallb (fun kv => isinstance_int (snd kv) && text_ok (snd kv)) d
  | _ => false
  end.

(** The quantity of an [add_item] call can be written as a text. *)
Definition op_text_ok (o : op) : bool :=
  match o with
  | OpAddItem _ qty _ => text_ok qty
  | _ => true
  end.

(** Opening or reading a path fails with an [OSError] or not at all. *)
Definition os_failures_only (fs : gmap string fnode) : Prop :=
  forall file e, fs !! file = Some (FFail e) -> exc_isinstance e OSError = true.

(** The path [file] can be opened for writing. *)
Definition writable (file : string) (s : state) : bool :=
  match files s !! file with
  | Some (FFail e) => negb (open_fails e)
  | _ => true
  end.

(** What [load_data file] would assign to [stock_data] in state [s]. *)
Definition loadable `{JsonLib} (file : string) (s : state) : option pyval :=
  match files s !! file with
  | Some (FText text) => json_loads text
  | _ => None
  end.

(** Every [load_data] of the sequence that reads a JSON document reads an
    object whose values are positive integers. *)
Fixpoint loads_positive `{JsonLib} (ops : list op) (s : state) : bool :=
  match ops with
  | [] => true
  | o :: ops' =>
      match o with
      | OpLoadData file =>
          match loadable file s with
          | Some v => positive_stock v
          | None => true
          end
      | _ => true
      end && loads_positive ops' (snd (call o s))
  end.

(** The calls that return a success indicator. *)
Definition returns_indicator (o : op) : bool :=
  match o with
  | OpAddItem _ _ _ | OpRemoveItem _ _ | OpLoadData _ | OpSaveData _ => true
  | _ => false
  end.

(** The items of [d] whose integer quantity is below the threshold [t],
    in the order of [d]. *)
Definition below (t : Z) (kv : string * pyval) : bool :=
  match py_int (snd kv) with
  | Some z => z <? t
  | None => false
  end.

Definition low_items (d : pydict) (t : Z) : list string :=
  dict_keys (List.filter (below t) d).

(** The integer stored for [k], 0 when [k] has no entry. *)
Definition quantity_of (d : pydict) (k : string) : Z :=
  match dict_lookup k d with
  | Some v => int_value v
  | None => 0
  end.

(** ** Predicates for the report, the log and the files *)

(** [item] is a text and [qty] a positive instance of [int]: the
    arguments that pass the checks of [remove_item]. *)
Definition removable_args (item qty : pyval) : bool :=
  isinstance_str item && is_positive_int_instance qty.

(** A value that [f"{qty:5}"] can format: a number, a [bool] or a text,
    and no integer of more than 4300 digits. *)
Definition printable (v : pyval) : bool :=
  match v with
  | PyNone | PyList _ | PyDict _ => false
  | _ => text_ok v
  end.

(** The lines that [print_data] prints for [items], one for each pair. *)
Definition report_lines (items : pydict) : list out_line :=
  map (fun kv => OutReportLine (fst kv) (snd kv)) items.

(** The order of [sorted] on pairs with different keys. *)
Definition key_le (a b : string * pyval) : Prop :=
  String.leb (fst a) (fst b) = true.

(** A log entry as [add_item] writes it: the item is a non-empty text and
    the quantity a positive instance of [int]. *)
Definition valid_log_entry (m : log_entry) : Prop :=
  log_item m <> EmptyString /\ is_positive_int_instance (log_qty m) = true.

(** The call is a [save_data]. *)
Definition is_save (o : op) : bool :=
  match o with
  | OpSaveData _ => true
  | _ => false
  end.

(** The call is an [add_item]. *)
Definition is_add (o : op) : bool :=
  match o with
  | OpAddItem _ _ _ => true
  | _ => false
  end.

(** ** Concrete states and files *)

Module Examples.

#[export] Existing Instance MiniJson.lib.

(** An inventory with ten apples, no files and an empty console. *)
Definition ten_apples : state :=
  State (PyDict [("apple", PyInt 10)]) [] ∅ [].

(** The mapping [{"apple": 7, "banana": 3}]. *)
Definition apples_bananas : state :=
  State (PyDict [("apple", PyInt 7); ("banana", PyInt 3)]) [] ∅ [].

(** The file system with one text file, at the default path. *)
Definition one_file (text : string) : gmap string fnode :=
  {[ default_file := FText text ]}.

(** The file system with one path that cannot be opened. *)
Definition locked_file : gmap string fnode :=
  {[ default_file := FFail PermissionError ]}.

(** The JSON text [{"apple": -5}]. *)
Definition negative_text : string :=
  "{" +:+ MiniJson.quote "apple" +:+ ": -5}".

(** The JSON text [{"apple": 0}]. *)
Definition zero_text : string :=
  "{" +:+ MiniJson.quote "apple" +:+ ": 0}".

(** The JSON text [{"apple": "ten"}]. *)
Definition word_text : string :=
  "{" +:+ MiniJson.quote "apple" +:+ ": " +:+ MiniJson.quote "ten" +:+ "}".

(** The JSON text of an empty array. *)
Definition array_text : string := "[]".

(** A text that is not a JSON document. *)
Definition broken_text : string := "{".

(** The calls of [main], with the readings of the clock. *)
Definition main_calls : list op :=
  [ OpAddItem (PyStr "apple") (PyInt 10) 1;
    OpAddItem (PyStr "banana") (PyInt 5) 2;
    OpAddItem (PyStr "orange") (PyInt 3) 3;
    OpAddItem (PyStr "banana") (PyInt (-2)) 4;
    OpAddItem (PyInt 123) (PyInt 10) 5;
    OpAddItem (PyStr "grape") (PyStr "ten") 6;
    OpRemoveItem (PyStr "apple") (PyInt 3);
    OpRemoveItem (PyStr "orange") (PyInt 1);
    OpGetQty (PyStr "apple");
    OpCheckLowItems default_threshold;
    OpSaveData default_file;
    OpLoadData default_file;
    OpPrintData ].

End Examples.

Module MoreExamples.

(** An inventory whose mapping is the empty list, as [load_data] leaves
    it after a file that holds a JSON array. *)
Definition array_stock : state := State (PyList []) [] ∅ [].

(** The file system with one file that is no UTF-8 text. *)
Definition undecodable_file : gmap string fnode :=
  {[ default_file := FFail UnicodeDecodeError ]}.

(** An inventory with a quantity of 4301 digits, [10 ** 4300]. *)
Definition long_quantity : state :=
  State (PyDict [("apple", PyInt int_text_limit)]) [] ∅ [].

(** Calls without a [save_data]. *)
Definition reading_calls : list op :=
  [ OpAddItem (PyStr "pear") (PyInt 2) 1;
    OpLoadData default_file;
    OpRemoveItem (PyStr "apple") (PyInt 1);
    OpPrintData ].

End MoreExamples.

(** * Properties *)

(** ** Dictionaries *)

Lemma eqb_name_refl (k : string) : String.eqb k k = true.
Proof. apply String.eqb_refl. Qed.

Lemma eqb_name_ne (k k' : string) : k <> k' -> String.eqb k k' = false.
Proof. intros Hne. now apply String.eqb_neq. Qed.

Lemma dict_lookup_set_eq k v d : dict_lookup k (dict_set k v d) = Some v.
Proof.
  induction d as [|[k' v'] d IH]; simpl.
  - now rewrite eqb_name_refl.
  - destruct (String.eqb k k') eqn:E; simpl.
    + now rewrite eqb_name_refl.
    + now rewrite E.
Qed.

Lemma dict_lookup_set_ne k k' v d :
  k <> k' -> dict_lookup k' (dict_set k v d) = dict_lookup k' d.
Proof.
  intros Hne. induction d as [|[k0 v0] d IH]; simpl.
  - rewrite eqb_name_ne; [reflexivity | congruence].
  - destruct (String.eqb k k0) eqn:E; simpl.
    + apply String.eqb_eq in E. subst k0.
      now rewrite !(eqb_name_ne k' k) by congruence.
    + now rewrite IH.
Qed.

Lemma dict_lookup_del_eq k d : dict_lookup k (dict_del k d) = None.
Proof.
  induction d as [|[k' v'] d IH]; simpl; [reflexivity|].
  destruct (String.eqb k k') eqn:E; simpl; [assumption|].
  now rewrite E.
Qed.

Lemma dict_lookup_del_ne k k' d :
  k <> k' -> dict_lookup k' (dict_del k d) = dict_lookup k' d.
Proof.
  intros Hne. induction d as [|[k0 v0] d IH]; simpl; [reflexivity|].
  destruct (String.eqb k k0) eqn:E; simpl.
  - apply String.eqb_eq in E. subst k0.
    now rewrite (eqb_name_ne k' k) by congruence.
  - now rewrite IH.
Qed.

Lemma dict_lookup_elem k v d : dict_lookup k d = Some v -> (k, v) ∈ d.
Proof.
  induction d as [|[k' v'] d IH]; simpl; [discriminate|].
  destruct (String.eqb k k') eqn:E.
  - apply String.eqb_eq in E. intros [= ->]. subst. apply list_elem_of_here.
  - intros Hl. apply list_elem_of_further. auto.
Qed.

(** ** Running the monad *)

Ltac run_m :=
  unfold bind, ret, raise, lift, gets, modify, print, try_except; simpl.

(** The cases of [save_data]: the node of the path, whether [open] fails
    on it, and whether [json.dump] raises. *)
Ltac save_cases s file :=
  unfold save_data, open_write; run_m;
  destruct (files s !! file) as [[?text|?e]|]; simpl;
  [ | destruct (open_fails _) eqn:?Hopen; simpl | ];
  try (destruct (json_dump_error (stock_data s)) as [?e|] eqn:?Hdump; simpl).

Lemma add_item_guard_item item :
  negb (truthy item) || negb (isinstance_str item) = negb (is_nonempty_text item).
Proof.
  destruct item as [| | | |name| |]; simpl;
    try reflexivity; apply orb_true_r || apply orb_false_r.
Qed.

Lemma add_item_guard_qty qty :
  negb (isinstance_int qty) || (int_value qty <=? 0)
  = negb (is_positive_int_instance qty).
Proof.
  unfold is_positive_int_instance, int_value.
  destruct qty; simpl; try reflexivity.
  - destruct b; reflexivity.
  - destruct (Z.leb_spec z 0), (Z.ltb_spec 0 z); simpl; try reflexivity; lia.
Qed.

(** ** [add_item] *)

(** C3, as amended.  When [item] is not a non-empty text, or [qty] is not
    a positive instance of [int] (the values that are no [int], and the
    integers and booleans that are 0 or less), [add_item] returns [False]
    and leaves the mapping, the log and the files as they were.  [True]
    is an instance of [int] and is accepted as the quantity 1. *)
Theorem add_item_rejects_invalid (s : state) (item qty : pyval) (now : datetime) :
  is_nonempty_text item && is_positive_int_instance qty = false ->
  let r := add_item item qty now s in
  fst r = Return false /\
  stock_data (snd r) = stock_data s /\
  logs (snd r) = logs s /\
  files (snd r) = files s.
Proof.
  intros Hbad. unfold add_item.
  rewrite add_item_guard_item, add_item_guard_qty.
  destruct (is_nonempty_text item); simpl in *.
  - rewrite Hbad. simpl. run_m. auto.
  - run_m. auto.
Qed.

(** C4, as amended.  For a non-empty string [name] and a positive
    integer [qty] of at most 4300 digits, [add_item] adds [qty] to the
    integer stored for [name], 0 when there is no entry, keeps the other
    entries, appends one entry to the log and returns [True].  With more
    digits the quantity is added and the call then raises [ValueError],
    when it writes the log message. *)
Theorem add_item_increments (s : state) (d : pydict) (name : string)
    (qty : Z) (now : datetime) :
  stock_data s = PyDict d ->
  name <> EmptyString ->
  0 < qty ->
  int_text_ok qty = true ->
  (forall v, dict_lookup name d = Some v -> isinstance_int v = true) ->
  let r := add_item (PyStr name) (PyInt qty) now s in
  fst r = Return true /\
  logs (snd r) = logs s ++ [LogAdded now (PyInt qty) name] /\
  exists d',
    stock_data (snd r) = PyDict d' /\
    dict_lookup name d' = Some (PyInt (quantity_of d name + qty)) /\
    forall k, k <> name -> dict_lookup k d' = dict_lookup k d.
Proof.
  intros Hsd Hname Hqty Hlim Hint. unfold add_item.
  rewrite add_item_guard_item, add_item_guard_qty.
  unfold is_positive_int_instance. simpl.
  rewrite (eqb_name_ne name EmptyString Hname).
  destruct (Z.ltb_spec 0 qty) as [_|]; [|lia]. simpl.
  run_m. rewrite Hsd. simpl.
  unfold quantity_of, int_value, format_log. simpl. rewrite Hlim.
  destruct (dict_lookup name d) as [v|] eqn:Hl; simpl.
  - specialize (Hint v eq_refl).
    destruct v; try discriminate; simpl.
    all: split; [reflexivity|]; split; [reflexivity|].
    all: eexists; split; [reflexivity|]; split;
      [apply dict_lookup_set_eq | intros k Hk; now apply dict_lookup_set_ne].
  - split; [reflexivity|]. split; [reflexivity|].
    eexists. split; [reflexivity|]. split.
    + apply dict_lookup_set_eq.
    + intros k Hk. now apply dict_lookup_set_ne.
Qed.

(** ** [remove_item] *)

(** C5.  For an item with the integer [z] in the mapping and a positive
    integer [qty], [remove_item] returns [True]; the item then holds
    [z - qty] when that is positive and has no entry when it is 0 or less;
    the other entries and the log are as before. *)
Theorem remove_item_subtracts (s : state) (d : pydict) (name : string)
    (z qty : Z) :
  stock_data s = PyDict d ->
  dict_lookup name d = Some (PyInt z) ->
  0 < qty ->
  let r := remove_item (PyStr name) (PyInt qty) s in
  fst r = Return true /\
  logs (snd r) = logs s /\
  exists d',
    stock_data (snd r) = PyDict d' /\
    dict_lookup name d' =
      (if z - qty <=? 0 then None else Some (PyInt (z - qty))) /\
    forall k, k <> name -> dict_lookup k d' = dict_lookup k d.
Proof.
  intros Hsd Hl Hqty. unfold remove_item. simpl.
  unfold int_value. simpl.
  destruct (Z.leb_spec qty 0) as [|_]; [lia|].
  run_m. rewrite Hsd. simpl. rewrite Hl. simpl.
  rewrite dict_lookup_set_eq. simpl.
  destruct (z - qty <=? 0) eqn:Hle; simpl; rewrite ?dict_lookup_set_eq; simpl.
  - split; [reflexivity|]. split; [reflexivity|].
    eexists. split; [reflexivity|]. split.
    + apply dict_lookup_del_eq.
    + intros k Hk. rewrite dict_lookup_del_ne by congruence.
      now apply dict_lookup_set_ne.
  - split; [reflexivity|]. split; [reflexivity|].
    eexists. split; [reflexivity|]. split.
    + apply dict_lookup_set_eq.
    + intros k Hk. now apply dict_lookup_set_ne.
Qed.

(** C6.  For an item without an entry in the mapping and a positive
    integer [qty], [remove_item] returns [False] and leaves the mapping
    and the log as they were. *)
Theorem remove_item_absent (s : state) (d : pydict) (name : string) (qty : Z) :
  stock_data s = PyDict d ->
  dict_lookup name d = None ->
  0 < qty ->
  let r := remove_item (PyStr name) (PyInt qty) s in
  fst r = Return false /\
  stock_data (snd r) = stock_data s /\
  logs (snd r) = logs s.
Proof.
  intros Hsd Hl Hqty. unfold remove_item. simpl.
  unfold int_value. simpl.
  destruct (Z.leb_spec qty 0) as [|_]; [lia|].
  run_m. rewrite Hsd. simpl. rewrite Hl. simpl.
  auto.
Qed.

(** ** [load_data] and [save_data] *)

Section Persistence.
Context `{JsonLib}.


(** C10.  When the text of the file is not a JSON document, and when
    opening the file fails with an [IOError] other than
    [FileNotFoundError], [load_data] leaves the mapping and the log as
    they were. *)
Theorem load_data_failure_keeps_mapping (s : state) (file : string) :
  (forall text,
     files s !! file = Some (FText text) -> json_loads text = None ->
     stock_data (snd (load_data file s)) = stock_data s /\
     logs (snd (load_data file s)) = logs s) /\
  (forall e,
     files s !! file = Some (FFail e) ->
     exc_isinstance e IOError = true ->
     exc_isinstance e FileNotFoundError = false ->
     stock_data (snd (load_data file s)) = stock_data s /\
     logs (snd (load_data file s)) = logs s).
Proof.
  unfold load_data, open_read. run_m.
  split.
  - intros text -> ->. simpl. auto.
  - intros e -> He Hnf.
    destruct e; simpl in *; try discriminate; auto.
Qed.





End Persistence.

(** ** [check_low_items] *)

Lemma low_items_loop_integers (d : pydict) (t : Z) (acc : list string) :
  integer_values d ->
  low_items_loop d t acc = Return (acc ++ low_items d t).
Proof.
  revert acc. induction d as [|[k v] d IH]; intros acc Hint; simpl.
  - now rewrite app_nil_r.
  - destruct (Hint k v) as [z ->]; [apply list_elem_of_here|].
    assert (integer_values d) as Hd.
    { intros k' v' Hin. apply (Hint k' v'). now apply list_elem_of_further. }
    unfold low_items, below. simpl.
    destruct (z <? t); simpl.
    + rewrite IH by assumption. now rewrite <- app_assoc.
    + now apply IH.
Qed.

Lemma elem_of_low_items (d : pydict) (t : Z) (k : string) :
  integer_values d ->
  k ∈ low_items d t <-> exists z, (k, PyInt z) ∈ d /\ z < t.
Proof.
  intros Hint. unfold low_items, dict_keys.
  rewrite list_elem_of_In, in_map_iff. split.
  - intros [[k' v] [Hk Hin]]. simpl in Hk. subst k'.
    apply filter_In in Hin as [Hin Hlt].
    apply list_elem_of_In in Hin.
    destruct (Hint k v Hin) as [z ->].
    exists z. split; [assumption|].
    unfold below in Hlt. simpl in Hlt. lia.
  - intros [z [Hin Hlt]]. exists (k, PyInt z). split; [reflexivity|].
    apply filter_In. split; [now apply list_elem_of_In|].
    unfold below. simpl. lia.
Qed.

(** C9, as amended.  On a mapping with integer values, a threshold that is
    a non-negative instance of [int] gives the list of exactly the items
    whose quantity is below it; a threshold that is no instance of [int],
    or is negative, gives the empty list.  A [bool] is an instance of
    [int]: [True] is the threshold 1 and [False] the threshold 0. *)
Theorem check_low_items_spec (s : state) (threshold : pyval) :
  (forall d t,
     stock_data s = PyDict d -> integer_values d ->
     py_int threshold = Some t -> 0 <= t ->
     exists l,
       fst (check_low_items threshold s) = Return l /\
       forall k, k ∈ l <-> exists z, (k, PyInt z) ∈ d /\ z < t) /\
  (is_nonnegative_int_instance threshold = false ->
   fst (check_low_items threshold s) = Return []).
Proof.
  unfold check_low_items, is_nonnegative_int_instance, int_value. split.
  - intros d t Hsd Hint Ht Hpos. exists (low_items d t).
    split; [|intros k; now apply elem_of_low_items].
    assert (negb (isinstance_int threshold)
            || (default 0 (py_int threshold) <? 0) = false) as ->.
    { destruct threshold; simpl in *; try discriminate;
        injection Ht as Ht; subst t; simpl; lia. }
    rewrite Ht. run_m. rewrite Hsd. simpl.
    now rewrite low_items_loop_integers.
  - intros Hbad.
    destruct threshold; simpl in *; try reflexivity.
    + destruct b; discriminate.
    + destruct (Z.leb_spec 0 z), (Z.ltb_spec z 0); try discriminate; try lia.
      reflexivity.
Qed.

(** ** The mapping along a sequence of calls *)

Lemma forallb_dict_set (P : string * pyval -> bool) k v d :
  forallb P d = true -> P (k, v) = true -> forallb P (dict_set k v d) = true.
Proof.
  intros Hd Hv. induction d as [|[k' v'] d IH]; simpl in *.
  - now rewrite Hv.
  - apply andb_true_iff in Hd as [Hkv Hd].
    destruct (String.eqb k k'); simpl.
    + now rewrite Hv, Hd.
    + now rewrite Hkv, IH.
Qed.

Lemma forallb_dict_del (P : string * pyval -> bool) k d :
  forallb P d = true -> forallb P (dict_del k d) = true.
Proof.
  intros Hd. induction d as [|[k' v'] d IH]; simpl in *; [reflexivity|].
  apply andb_true_iff in Hd as [Hkv Hd].
  destruct (String.eqb k k'); simpl; [auto|].
  now rewrite Hkv, IH.
Qed.

Lemma forallb_dict_del_set (P : string * pyval -> bool) k v d :
  forallb P d = true -> forallb P (dict_del k (dict_set k v d)) = true.
Proof.
  intros Hd. induction d as [|[k' v'] d IH]; simpl in *.
  - now rewrite eqb_name_refl.
  - apply andb_true_iff in Hd as [Hkv Hd].
    destruct (String.eqb k k') eqn:E; simpl.
    + rewrite eqb_name_refl. now apply forallb_dict_del.
    + rewrite E. simpl. now rewrite Hkv, IH.
Qed.

Lemma forallb_dict_lookup (P : string * pyval -> bool) k v d :
  forallb P d = true -> dict_lookup k d = Some v -> P (k, v) = true.
Proof.
  intros Hd Hl. apply dict_lookup_elem in Hl.
  rewrite forallb_forall in Hd. apply Hd. now apply list_elem_of_In.
Qed.

Lemma positive_stock_inv sd :
  positive_stock sd = true ->
  exists d, sd = PyDict d /\
            forall k v, (k, v) ∈ d -> exists z, v = PyInt z /\ 0 < z.
Proof.
  destruct sd as [| | | | | |d]; simpl; try discriminate.
  intros Hd. exists d. split; [reflexivity|].
  intros k v Hin. rewrite forallb_forall in Hd.
  apply list_elem_of_In in Hin. specialize (Hd _ Hin). simpl in Hd.
  destruct v; simpl in Hd; try discriminate.
  eexists. split; [reflexivity|]. lia.
Qed.

Lemma positive_int_stock sd : positive_stock sd = true -> int_stock sd = true.
Proof.
  destruct sd as [| | | | | |d]; simpl; try discriminate.
  intros Hd. rewrite forallb_forall in *. intros kv Hin.
  specialize (Hd kv Hin). now destruct (snd kv).
Qed.

Lemma add_item_keeps_positive s item qty now :
  positive_stock (stock_data s) = true ->
  positive_stock (stock_data (snd (add_item item qty now s))) = true.
Proof.
  intros Hpos. unfold add_item.
  rewrite add_item_guard_item, add_item_guard_qty.
  destruct (is_nonempty_text item) eqn:Hitem; simpl; [|exact Hpos].
  unfold is_positive_int_instance, int_value.
  destruct (py_int qty) as [q|] eqn:Hq; simpl; [|exact Hpos].
  destruct (Z.ltb_spec 0 q) as [Hlt|_]; simpl; [|exact Hpos].
  run_m. destruct (stock_data s) as [| | | | | |d]; try discriminate.
  simpl in *.
  destruct (dict_lookup (str_value item) d) as [v|] eqn:Hl; simpl.
  - pose proof (forallb_dict_lookup _ _ _ _ Hpos Hl) as Hv. simpl in Hv.
    destruct v; simpl in Hv; try discriminate. simpl.
    destruct (format_log now qty (str_value item)); simpl;
      (apply forallb_dict_set; [assumption|]; simpl; lia).
  - destruct (format_log now qty (str_value item)); simpl;
      (apply forallb_dict_set; [assumption|]; simpl; lia).
Qed.

Lemma remove_item_keeps_positive s item qty :
  positive_stock (stock_data s) = true ->
  positive_stock (stock_data (snd (remove_item item qty s))) = true.
Proof.
  intros Hpos. unfold remove_item.
  destruct (negb (isinstance_str item) || negb (isinstance_int qty));
    simpl; [exact Hpos|].
  destruct (int_value qty <=? 0); simpl; [exact Hpos|].
  run_m. destruct (stock_data s) as [| | | | | |d] eqn:Hsd; try discriminate.
  simpl in *.
  destruct (dict_lookup (str_value item) d) as [v|] eqn:Hl; simpl;
    [|now rewrite Hsd].
  pose proof (forallb_dict_lookup _ _ _ _ Hpos Hl) as Hv. simpl in Hv.
  destruct v; simpl in Hv; try discriminate. simpl.
  rewrite dict_lookup_set_eq. simpl.
  destruct (z - int_value qty <=? 0) eqn:Hle; simpl.
  - now apply forallb_dict_del_set.
  - apply forallb_dict_set; [assumption|]. simpl. lia.
Qed.

Lemma get_qty_stock s item : stock_data (snd (get_qty item s)) = stock_data s.
Proof.
  unfold get_qty. destruct (negb (isinstance_str item)); run_m;
    [reflexivity|].
  now destruct (py_get (stock_data s) (str_value item) (PyInt 0)).
Qed.

Lemma check_low_items_stock s threshold :
  stock_data (snd (check_low_items threshold s)) = stock_data s.
Proof.
  unfold check_low_items.
  destruct (negb (isinstance_int threshold) || (int_value threshold <? 0));
    run_m; [reflexivity|].
  destruct (py_items (stock_data s)) as [items|]; simpl; reflexivity.
Qed.

Lemma print_report_lines_stock items s :
  stock_data (snd (print_report_lines items s)) = stock_data s.
Proof.
  revert s. induction items as [|[item qty] items IH]; intros s; simpl;
    [reflexivity|].
  run_m. destruct (format_report_line item qty) as [line|e]; simpl;
    [|reflexivity].
  specialize (IH (set_console (console s ++ [line]) s)).
  destruct (print_report_lines items _) as [[[]|e] s']; exact IH.
Qed.

Lemma print_data_stock s : stock_data (snd (print_data s)) = stock_data s.
Proof.
  unfold print_data. run_m.
  destruct (negb (truthy (stock_data s))); simpl; [reflexivity|].
  destruct (py_items (stock_data s)) as [items|]; simpl; [|reflexivity].
  match goal with
  | |- context [print_report_lines ?l ?s0] =>
      pose proof (print_report_lines_stock l s0) as Hp;
      destruct (print_report_lines l s0) as [[[]|e] s']
  end; simpl in *; exact Hp.
Qed.

Section Sequences.
Context `{JsonLib}.

Lemma save_data_stock s file :
  stock_data (snd (save_data file s)) = stock_data s.
Proof.
  save_cases s file; try reflexivity.
  all: match goal with
       | |- context [exc_isinstance ?x IOError] =>
           destruct (exc_isinstance x IOError); reflexivity
       end.
Qed.

Lemma load_data_stock s file :
  stock_data (snd (load_data file s)) =
    match loadable file s with
    | Some v => v
    | None =>
        match files s !! file with
        | None | Some (FFail FileNotFoundError) => PyDict []
        | _ => stock_data s
        end
    end.
Proof.
  unfold load_data, loadable, open_read. run_m.
  destruct (files s !! file) as [[text|e]|]; simpl.
  - destruct (json_loads text); reflexivity.
  - destruct e; reflexivity.
  - reflexivity.
Qed.

Lemma run_keeps_positive ops s :
  positive_stock (stock_data s) = true ->
  loads_positive ops s = true ->
  positive_stock (stock_data (run ops s)) = true.
Proof.
  revert s. induction ops as [|o ops IH]; intros s Hpos Hloads; simpl in *.
  - exact Hpos.
  - apply andb_true_iff in Hloads as [Hload Hloads].
    apply IH; [|exact Hloads]. clear IH Hloads.
    destruct o; simpl; unfold bind, ret.
    + pose proof (add_item_keeps_positive s item qty now Hpos) as Hk.
      now destruct (add_item item qty now s) as [[b|e] s'].
    + pose proof (remove_item_keeps_positive s item qty Hpos) as Hk.
      now destruct (remove_item item qty s) as [[b|e] s'].
    + now rewrite get_qty_stock.
    + pose proof (load_data_stock s file) as Hk.
      destruct (load_data file s) as [[b|e] s']; simpl in *.
      all: rewrite Hk; destruct (loadable file s); [exact Hload|].
      all: destruct (files s !! file) as [[text|[]]|]; auto.
    + pose proof (save_data_stock s file) as Hk.
      destruct (save_data file s) as [[b|e] s']; simpl in *; congruence.
    + pose proof (print_data_stock s) as Hk.
      destruct (print_data s) as [[b|e] s']; simpl in *; congruence.
    + pose proof (check_low_items_stock s threshold) as Hk.
      destruct (check_low_items threshold s) as [[b|e] s']; simpl in *;
        congruence.
Qed.

(** C1, as amended.  Start from an empty inventory and make any
    sequence of calls in which every [load_data] that reads a JSON
    document reads an object whose values are positive integers; then
    the mapping is a [dict] and every quantity in it is a positive
    integer.  [load_data] stores what the file holds without a check,
    so a file with another content gives another mapping. *)
Theorem stock_positive_after_calls (ops : list op)
    (fs : gmap string fnode) (out : list out_line) :
  loads_positive ops (init fs out) = true ->
  exists d,
    stock_data (run ops (init fs out)) = PyDict d /\
    forall k v, (k, v) ∈ d -> exists z, v = PyInt z /\ 0 < z.
Proof.
  intros Hloads. apply positive_stock_inv.
  now apply run_keeps_positive.
Qed.

End Sequences.

(** ** Calls that return *)

Lemma small_stock_int sd : small_stock sd = true -> int_stock sd = true.
Proof.
  destruct sd as [| | | | | |d]; simpl; try discriminate.
  intros Hd. rewrite forallb_forall in *. intros kv Hin.
  specialize (Hd kv Hin). now apply andb_true_iff in Hd as [Hd _].
Qed.

Lemma add_item_returns s item qty now :
  int_stock (stock_data s) = true ->
  text_ok qty = true ->
  exists b, fst (add_item item qty now s) = Return b.
Proof.
  intros Hint Htext. unfold add_item.
  destruct (negb (truthy item) || negb (isinstance_str item)); simpl;
    [now exists false|].
  destruct (negb (isinstance_int qty) || (int_value qty <=? 0)); simpl;
    [now exists false|].
  unfold format_log. rewrite Htext.
  run_m. destruct (stock_data s) as [| | | | | |d] eqn:Hsd; try discriminate.
  simpl in *. exists true.
  destruct (dict_lookup (str_value item) d) as [v|] eqn:Hl; simpl;
    [|reflexivity].
  pose proof (forallb_dict_lookup _ _ _ _ Hint Hl) as Hv. simpl in Hv.
  destruct v; simpl in Hv; try discriminate; reflexivity.
Qed.

Lemma remove_item_returns s item qty :
  int_stock (stock_data s) = true ->
  exists b, fst (remove_item item qty s) = Return b.
Proof.
  intros Hint. unfold remove_item.
  destruct (negb (isinstance_str item) || negb (isinstance_int qty)); simpl;
    [now exists false|].
  destruct (int_value qty <=? 0); simpl; [now exists false|].
  run_m. destruct (stock_data s) as [| | | | | |d] eqn:Hsd; try discriminate.
  simpl in *.
  destruct (dict_lookup (str_value item) d) as [v|] eqn:Hl; simpl;
    [|now exists false].
  pose proof (forallb_dict_lookup _ _ _ _ Hint Hl) as Hv. simpl in Hv.
  exists true.
  destruct v; simpl in Hv; try discriminate; simpl;
    rewrite dict_lookup_set_eq; simpl.
  - destruct (Z.b2z b - int_value qty <=? 0); reflexivity.
  - destruct (z - int_value qty <=? 0); reflexivity.
Qed.

Lemma get_qty_returns s item :
  int_stock (stock_data s) = true ->
  exists v, fst (get_qty item s) = Return v.
Proof.
  intros Hint. unfold get_qty.
  destruct (negb (isinstance_str item)); run_m; [eauto|].
  destruct (stock_data s); try discriminate. simpl. eauto.
Qed.

Lemma low_items_loop_returns d t acc :
  forallb (fun kv => isinstance_int (snd kv)) d = true ->
  exists l, low_items_loop d t acc = Return l.
Proof.
  revert acc. induction d as [|[k v] d IH]; intros acc Hd; simpl in *.
  - eauto.
  - apply andb_true_iff in Hd as [Hv Hd].
    destruct v; simpl in Hv; try discriminate; simpl.
    + destruct (Z.b2z b <? t); auto.
    + destruct (z <? t); auto.
Qed.

Lemma check_low_items_returns s threshold :
  int_stock (stock_data s) = true ->
  exists l, fst (check_low_items threshold s) = Return l.
Proof.
  intros Hint. unfold check_low_items.
  destruct (negb (isinstance_int threshold) || (int_value threshold <? 0));
    run_m; [eauto|].
  destruct (stock_data s) as [| | | | | |d]; try discriminate. simpl in *.
  destruct (low_items_loop_returns d (int_value threshold) [] Hint) as [l ->].
  eauto.
Qed.

Lemma Forall_insert_sorted (P : string * pyval -> Prop) kv l :
  P kv -> Forall P l -> Forall P (insert_sorted kv l).
Proof.
  intros Hkv Hl. induction Hl as [|kv' l Hkv' Hl IH]; simpl.
  - auto.
  - destruct (String.ltb (fst kv) (fst kv')); auto.
Qed.

Lemma Forall_sorted_items (P : string * pyval -> Prop) d :
  Forall P d -> Forall P (sorted_items d).
Proof.
  unfold sorted_items. intros Hd.
  assert (Forall P ([] : pydict)) as Hacc by constructor.
  revert Hacc. generalize ([] : pydict) as acc.
  induction Hd as [|kv d Hkv Hd IH]; intros acc Hacc; simpl.
  - exact Hacc.
  - apply IH. now apply Forall_insert_sorted.
Qed.

Lemma print_report_lines_returns items s :
  Forall (fun kv => isinstance_int (snd kv) && text_ok (snd kv) = true)
    items ->
  fst (print_report_lines items s) = Return tt.
Proof.
  intros Hitems. revert s.
  induction Hitems as [|[item qty] items Hqty Hitems IH]; intros s; simpl.
  - reflexivity.
  - run_m. simpl in Hqty. apply andb_true_iff in Hqty as [Hqty Htext].
    destruct qty; simpl in Hqty; try discriminate; simpl in *.
    + specialize (IH (set_console (console s ++ [OutReportLine item (PyBool b)]) s)).
      now destruct (print_report_lines items _) as [[[]|e] s'].
    + rewrite Htext. simpl.
      specialize (IH (set_console (console s ++ [OutReportLine item (PyInt z)]) s)).
      now destruct (print_report_lines items _) as [[[]|e] s'].
Qed.

Lemma print_data_returns s :
  small_stock (stock_data s) = true ->
  fst (print_data s) = Return tt.
Proof.
  intros Hint. unfold print_data. run_m.
  destruct (stock_data s) as [| | | | | |d]; try discriminate. simpl in *.
  assert (Forall (fun kv => isinstance_int (snd kv) && text_ok (snd kv) = true)
            d) as Hd.
  { apply Forall_forall. intros x Hx.
    rewrite forallb_forall in Hint. apply Hint. now apply list_elem_of_In. }
  clear Hint. destruct d as [|kv d]; simpl; [reflexivity|].
  match goal with
  | |- context [print_report_lines ?l ?s0] =>
      pose proof (print_report_lines_returns l s0) as Hp;
      destruct (print_report_lines l s0) as [[[]|e] s']
  end; simpl in *; [reflexivity|].
  apply Hp. now apply (Forall_sorted_items _ (kv :: d)).
Qed.

Section Returns.
Context `{JsonLib}.

Lemma load_data_returns s file :
  os_failures_only (files s) ->
  exists b, fst (load_data file s) = Return b.
Proof.
  intros Hos. unfold load_data, open_read. run_m.
  destruct (files s !! file) as [[text|e]|] eqn:Hf; simpl.
  - destruct (json_loads text); simpl; eauto.
  - specialize (Hos file e Hf).
    destruct e; simpl in *; try discriminate; eauto.
  - eauto.
Qed.

Lemma save_data_returns s file :
  os_failures_only (files s) ->
  json_dump_error (stock_data s) = None ->
  exists b, fst (save_data file s) = Return b.
Proof.
  intros Hos Hdump. unfold save_data, open_write, open_fails. run_m.
  destruct (files s !! file) as [[text|e]|] eqn:Hf; simpl.
  2: specialize (Hos file e Hf); unfold IOError; rewrite Hos; simpl;
       rewrite Hos; simpl; eauto.
  all: rewrite Hdump; simpl; eauto.
Qed.

(** C2, as amended.  In a state whose mapping is a [dict] with values
    that are instances of [int] of at most 4300 digits and that
    [json.dump] can write, with files whose opening or reading fails with
    an [OSError] or not at all, every call of a public method returns:
    none raises, whatever the arguments, but for a quantity of
    [add_item] of more than 4300 digits, and [add_item], [remove_item],
    [load_data] and [save_data] return a [bool].  [load_data] stores
    what the file holds without a check; on another mapping a later call
    can raise. *)
Theorem call_returns (s : state) (o : op) :
  small_stock (stock_data s) = true ->
  op_text_ok o = true ->
  os_failures_only (files s) ->
  json_dump_error (stock_data s) = None ->
  exists v,
    fst (call o s) = Return v /\
    (returns_indicator o = true -> exists b, v = PyBool b).
Proof.
  intros Hsmall Htext Hos Hdump.
  pose proof (small_stock_int _ Hsmall) as Hint.
  destruct o; simpl; unfold bind, ret.
  - destruct (add_item_returns s item qty now Hint Htext) as [b Hb].
    destruct (add_item item qty now s) as [[b'|e] s']; simpl in *;
      [|discriminate]. eauto.
  - destruct (remove_item_returns s item qty Hint) as [b Hb].
    destruct (remove_item item qty s) as [[b'|e] s']; simpl in *;
      [|discriminate]. eauto.
  - destruct (get_qty_returns s item Hint) as [v Hv].
    exists v. split; [assumption|discriminate].
  - destruct (load_data_returns s file Hos) as [b Hb].
    destruct (load_data file s) as [[b'|e] s']; simpl in *;
      [|discriminate]. eauto.
  - destruct (save_data_returns s file Hos Hdump) as [b Hb].
    destruct (save_data file s) as [[b'|e] s']; simpl in *;
      [|discriminate]. eauto.
  - pose proof (print_data_returns s Hsmall) as Hp.
    destruct (print_data s) as [[[]|e] s']; simpl in *; [|discriminate].
    exists PyNone. split; [reflexivity|discriminate].
  - destruct (check_low_items_returns s threshold Hint) as [l Hl].
    destruct (check_low_items threshold s) as [[l'|e] s']; simpl in *;
      [|discriminate]. eexists. split; [reflexivity|discriminate].
Qed.

End Returns.

(** * The methods on concrete inputs *)

Section Concrete.
Import Examples.

(** The run of [main] from an empty inventory without files. *)
Example main_stock :
  stock_data (run main_calls (init ∅ [])) =
    PyDict [("apple", PyInt 7); ("banana", PyInt 5); ("orange", PyInt 2)].
Proof. vm_compute. reflexivity. Qed.

Example main_low_items :
  fst (check_low_items default_threshold (run main_calls (init ∅ [])))
    = Return ["orange"].
Proof. vm_compute. reflexivity. Qed.

(** The scenario of the specification: add 10, a rejected add of -2,
    remove 15, and the quantity is 0 with no entry left. *)
Example scenario_apple :
  let s1 := snd (add_item (PyStr "apple") (PyInt 10) 1 (init ∅ [])) in
  let r2 := add_item (PyStr "apple") (PyInt (-2)) 2 s1 in
  let r3 := remove_item (PyStr "apple") (PyInt 15) (snd r2) in
  fst r2 = Return false /\
  fst (get_qty (PyStr "apple") (snd r2)) = Return (PyInt 10) /\
  fst r3 = Return true /\
  stock_data (snd r3) = PyDict [] /\
  fst (get_qty (PyStr "apple") (snd r3)) = Return (PyInt 0).
Proof. vm_compute. repeat split. Qed.

(** A file whose bytes are not UTF-8 text: reading it raises
    [UnicodeDecodeError], a [ValueError] that no clause of [load_data]
    catches. *)
Example load_data_undecodable :
  fst (load_data default_file
         (init {[ default_file := FFail UnicodeDecodeError ]} []))
    = Raise UnicodeDecodeError.
Proof. vm_compute. reflexivity. Qed.

End Concrete.

(** * Instances of the theorems, and the inputs on which the claims of
      the specification differ from the code *)

Section Instances.
Import Examples.

Lemma add_item_rejects_invalid_witness :
  is_nonempty_text (PyStr "apple") && is_positive_int_instance (PyInt (-2))
    = false /\
  let r := add_item (PyStr "apple") (PyInt (-2)) 1 ten_apples in
  fst r = Return false /\
  stock_data (snd r) = stock_data ten_apples /\
  logs (snd r) = logs ten_apples /\
  files (snd r) = files ten_apples.
Proof.
  split; [reflexivity|].
  apply (add_item_rejects_invalid ten_apples (PyStr "apple") (PyInt (-2)) 1).
  reflexivity.
Defined.

(** [True] is not an integer quantity, and [add_item] takes it: the call
    returns [True], stores the quantity 1 and writes the log. *)
Lemma add_item_accepts_True :
  let r := add_item (PyStr "apple") (PyBool true) 1 (init ∅ []) in
  is_nonempty_text (PyStr "apple") && is_positive_integer (PyBool true)
    = false /\
  fst r = Return true /\
  stock_data (snd r) = PyDict [("apple", PyInt 1)] /\
  logs (snd r) = [LogAdded 1 (PyBool true) "apple"].
Proof. vm_compute. repeat split. Qed.

Lemma add_item_increments_witness :
  let r := add_item (PyStr "apple") (PyInt 5) 1 ten_apples in
  fst r = Return true /\
  logs (snd r) = logs ten_apples ++ [LogAdded 1 (PyInt 5) "apple"] /\
  exists d',
    stock_data (snd r) = PyDict d' /\
    dict_lookup "apple" d' =
      Some (PyInt (quantity_of [("apple", PyInt 10)] "apple" + 5)) /\
    forall k, k <> "apple" ->
              dict_lookup k d' = dict_lookup k [("apple", PyInt 10)].
Proof.
  apply (add_item_increments ten_apples [("apple", PyInt 10)] "apple" 5 1).
  - reflexivity.
  - discriminate.
  - lia.
  - vm_compute. reflexivity.
  - simpl. intros v [= <-]. reflexivity.
Defined.

(** The quantity [10 ** 4300], of 4301 digits: [add_item] stores it and
    then raises [ValueError] when it writes the log message; the log has
    no entry. *)
Lemma add_item_long_quantity :
  let r := add_item (PyStr "apple") (PyInt int_text_limit) 1 (init ∅ []) in
  is_nonempty_text (PyStr "apple")
    && is_positive_integer (PyInt int_text_limit) = true /\
  fst r = Raise ValueError /\
  stock_data (snd r) = PyDict [("apple", PyInt int_text_limit)] /\
  logs (snd r) = [].
Proof. vm_compute. repeat split. Qed.

Lemma remove_item_subtracts_witness :
  let r := remove_item (PyStr "apple") (PyInt 15) ten_apples in
  fst r = Return true /\
  logs (snd r) = logs ten_apples /\
  exists d',
    stock_data (snd r) = PyDict d' /\
    dict_lookup "apple" d' =
      (if 10 - 15 <=? 0 then None else Some (PyInt (10 - 15))) /\
    forall k, k <> "apple" ->
              dict_lookup k d' = dict_lookup k [("apple", PyInt 10)].
Proof.
  apply (remove_item_subtracts ten_apples [("apple", PyInt 10)] "apple" 10 15).
  - reflexivity.
  - reflexivity.
  - lia.
Defined.

Lemma remove_item_absent_witness :
  let r := remove_item (PyStr "pear") (PyInt 1) ten_apples in
  fst r = Return false /\
  stock_data (snd r) = stock_data ten_apples /\
  logs (snd r) = logs ten_apples.
Proof.
  apply (remove_item_absent ten_apples [("apple", PyInt 10)] "pear" 1).
  - reflexivity.
  - reflexivity.
  - lia.
Defined.


Lemma load_data_failure_keeps_mapping_witness :
  let broken := set_files (one_file broken_text) ten_apples in
  let locked := set_files locked_file ten_apples in
  (stock_data (snd (load_data default_file broken)) = stock_data broken /\
   logs (snd (load_data default_file broken)) = logs broken) /\
  (stock_data (snd (load_data default_file locked)) = stock_data locked /\
   logs (snd (load_data default_file locked)) = logs locked).
Proof.
  intros broken locked. split.
  - apply (proj1 (load_data_failure_keeps_mapping broken default_file)
             broken_text); reflexivity.
  - apply (proj2 (load_data_failure_keeps_mapping locked default_file)
             PermissionError); reflexivity.
Defined.


Lemma check_low_items_spec_witness :
  (exists l,
     fst (check_low_items (PyInt 5) apples_bananas) = Return l /\
     forall k, k ∈ l <->
       exists z, (k, PyInt z) ∈ [("apple", PyInt 7); ("banana", PyInt 3)]
                 /\ z < 5) /\
  fst (check_low_items (PyInt (-1)) apples_bananas) = Return [].
Proof.
  split.
  - apply (proj1 (check_low_items_spec apples_bananas (PyInt 5))
             [("apple", PyInt 7); ("banana", PyInt 3)] 5).
    + reflexivity.
    + intros k v Hin.
      apply elem_of_cons in Hin as [[= -> ->]|Hin]; [eauto|].
      apply elem_of_cons in Hin as [[= -> ->]|Hin]; [eauto|].
      now apply elem_of_nil in Hin.
    + reflexivity.
    + lia.
  - apply (proj2 (check_low_items_spec apples_bananas (PyInt (-1)))).
    reflexivity.
Defined.

(** After the file [{"apple": 0}] is loaded, the threshold [True], which
    is not an integer, gives a list that is not empty. *)
Lemma check_low_items_True_threshold :
  let s1 := snd (load_data default_file (init (one_file zero_text) [])) in
  fst (load_data default_file (init (one_file zero_text) [])) = Return true /\
  stock_data s1 = PyDict [("apple", PyInt 0)] /\
  is_nonnegative_integer (PyBool true) = false /\
  fst (check_low_items (PyBool true) s1) = Return ["apple"].
Proof. vm_compute. repeat split. Qed.

Lemma stock_positive_after_calls_witness :
  exists d,
    stock_data (run main_calls (init ∅ [])) = PyDict d /\
    forall k v, (k, v) ∈ d -> exists z, v = PyInt z /\ 0 < z.
Proof.
  apply (stock_positive_after_calls main_calls ∅ []).
  vm_compute. reflexivity.
Defined.

(** From the empty inventory, one [load_data] of the file
    [{"apple": -5}] returns [True] and leaves a negative quantity in the
    mapping. *)
Lemma load_data_stores_negative :
  let s0 := init (one_file negative_text) [] in
  fst (call (OpLoadData default_file) s0) = Return (PyBool true) /\
  stock_data (run [OpLoadData default_file] s0)
    = PyDict [("apple", PyInt (-5))] /\
  positive_stock (stock_data (run [OpLoadData default_file] s0)) = false.
Proof. vm_compute. repeat split. Qed.

Lemma call_returns_witness :
  exists v,
    fst (call (OpAddItem (PyStr "apple") (PyInt 5) 1)
           (set_files locked_file ten_apples)) = Return v /\
    (returns_indicator (OpAddItem (PyStr "apple") (PyInt 5) 1) = true ->
     exists b, v = PyBool b).
Proof.
  apply (call_returns (set_files locked_file ten_apples)
           (OpAddItem (PyStr "apple") (PyInt 5) 1)).
  - vm_compute. reflexivity.
  - vm_compute. reflexivity.
  - intros file e Hfile. simpl in Hfile. unfold locked_file in Hfile.
    apply lookup_singleton_Some in Hfile as [_ [= <-]]. reflexivity.
  - vm_compute. reflexivity.
Defined.

(** After [load_data] has read a file that holds a JSON array, or an
    object with a text as a quantity, [add_item] with valid arguments
    raises. *)
Lemma add_item_raises_after_load :
  let s1 := snd (load_data default_file (init (one_file array_text) [])) in
  let s2 := snd (load_data default_file (init (one_file word_text) [])) in
  fst (load_data default_file (init (one_file array_text) []))
    = Return true /\
  fst (call (OpAddItem (PyStr "apple") (PyInt 1) 1) s1)
    = Raise AttributeError /\
  fst (load_data default_file (init (one_file word_text) []))
    = Return true /\
  fst (call (OpAddItem (PyStr "apple") (PyInt 1) 1) s2) = Raise TypeError.
Proof. vm_compute. repeat split. Qed.

End Instances.

(** * Further properties of the methods *)

(** ** [get_qty] *)

(** X1.  [get_qty] returns 0 for an item that is no text.  For a text
    and a mapping that is a [dict] it returns the stored value, 0 when the
    item has no entry, and prints nothing.  For a text and a mapping that
    is no [dict] it raises [AttributeError]. *)
Theorem get_qty_reads (s : state) (item : pyval) :
  let r := get_qty item s in
  (isinstance_str item = false -> fst r = Return (PyInt 0)) /\
  (forall d name,
     stock_data s = PyDict d -> item = PyStr name ->
     fst r = Return (default (PyInt 0) (dict_lookup name d)) /\
     console (snd r) = console s) /\
  (forall name,
     (forall d, stock_data s <> PyDict d) -> item = PyStr name ->
     fst r = Raise AttributeError).
Proof.
  unfold get_qty. split; [|split].
  - intros ->. reflexivity.
  - intros d name Hsd ->. simpl. run_m. rewrite Hsd. simpl. auto.
  - intros name Hnd ->. simpl. run_m.
    destruct (stock_data s) as [| | | | | |d]; try reflexivity.
    now destruct (Hnd d).
Qed.

(** ** [remove_item], the calls that do not succeed *)

(** X2.  When [item] is no text, or [qty] is no positive instance of
    [int], [remove_item] returns [False] and leaves the mapping, the log
    and the files as they were. *)
Theorem remove_item_rejects_invalid (s : state) (item qty : pyval) :
  removable_args item qty = false ->
  let r := remove_item item qty s in
  fst r = Return false /\
  stock_data (snd r) = stock_data s /\
  logs (snd r) = logs s /\
  files (snd r) = files s.
Proof.
  unfold removable_args, is_positive_int_instance, remove_item, int_value.
  intros Hbad.
  destruct item, qty; simpl in *; try (run_m; auto; fail).
  - destruct b; [discriminate|]. run_m. auto.
  - destruct (Z.ltb_spec 0 z) as [|Hz]; [discriminate|].
    destruct (Z.leb_spec z 0) as [_|]; [|lia]. run_m. auto.
Qed.

(** X3.  [remove_item] never changes the log or the files; it ends by
    returning a [bool] or by raising [OverflowError]; when it does not
    return [True] the mapping is as it was; and on a mapping that is not
    a [dict] it returns [False]. *)
Theorem remove_item_failure_unchanged (s : state) (item qty : pyval) :
  let r := remove_item item qty s in
  logs (snd r) = logs s /\
  files (snd r) = files s /\
  (fst r = Return true \/ fst r = Return false \/
   fst r = Raise OverflowError) /\
  (fst r <> Return true -> stock_data (snd r) = stock_data s) /\
  ((forall d, stock_data s <> PyDict d) -> fst r = Return false).
Proof.
  unfold remove_item.
  destruct (negb (isinstance_str item) || negb (isinstance_int qty));
    [run_m; repeat split; auto|].
  destruct (int_value qty <=? 0); [run_m; repeat split; auto|].
  run_m.
  destruct (stock_data s) as [| | | |t|l|d] eqn:Hsd; simpl;
    try (repeat split; auto; fail).
  - destruct (is_substring (str_value item) t); simpl; repeat split; auto.
  - destruct (existsb _ l); simpl; repeat split; auto.
  - destruct (dict_lookup (str_value item) d) as [v|] eqn:Hl; simpl;
      [|repeat split; auto; intros Hd; now destruct (Hd d)].
    destruct v as [|b|z|f| | |]; simpl;
      try (repeat split; auto; intros Hd; now destruct (Hd d)).
    + rewrite dict_lookup_set_eq. simpl.
      destruct (Z.b2z b - int_value qty <=? 0); simpl;
        rewrite ?dict_lookup_set_eq; simpl;
        repeat split; auto; try congruence; intros Hd; now destruct (Hd d).
    + rewrite dict_lookup_set_eq. simpl.
      destruct (z - int_value qty <=? 0); simpl;
        rewrite ?dict_lookup_set_eq; simpl;
        repeat split; auto; try congruence; intros Hd; now destruct (Hd d).
    + destruct (float_of_int (int_value qty)) as [g|]; simpl;
        [|repeat split; auto; intros Hd; now destruct (Hd d)].
      rewrite dict_lookup_set_eq. simpl.
      destruct (float_compare_int _ 0) as [[| |]|]; simpl;
        rewrite ?dict_lookup_set_eq; simpl;
        repeat split; auto; try congruence; intros Hd; now destruct (Hd d).
Qed.

(** ** [add_item], the calls that do not succeed *)

(** X4.  [add_item] never changes the files; it ends by returning a
    [bool] or by raising [AttributeError], [TypeError], [OverflowError]
    or [ValueError].  When it does not return [True] the log is as it
    was, and the mapping too unless it raises [ValueError]: that comes
    from the log message of a quantity of more than 4300 digits, after
    the quantity has been added to the mapping. *)
Theorem add_item_failures (s : state) (item qty : pyval) (now : datetime) :
  let r := add_item item qty now s in
  files (snd r) = files s /\
  (fst r = Return true \/ fst r = Return false \/
   fst r = Raise AttributeError \/ fst r = Raise TypeError \/
   fst r = Raise OverflowError \/ fst r = Raise ValueError) /\
  (fst r <> Return true -> logs (snd r) = logs s) /\
  (fst r <> Return true -> fst r <> Raise ValueError ->
   stock_data (snd r) = stock_data s) /\
  (fst r = Raise ValueError ->
   text_ok qty = false /\
   exists d v,
     stock_data s = PyDict d /\
     py_add_int (default (PyInt 0) (dict_lookup (str_value item) d))
       (int_value qty) = Return v /\
     stock_data (snd r) = PyDict (dict_set (str_value item) v d)).
Proof.
  unfold add_item.
  destruct (negb (truthy item) || negb (isinstance_str item));
    [run_m; repeat split; auto; discriminate|].
  destruct (negb (isinstance_int qty) || (int_value qty <=? 0));
    [run_m; repeat split; auto; discriminate|].
  unfold format_log. run_m.
  destruct (stock_data s) as [| | | | | |d] eqn:Hsd; simpl;
    try (repeat split; auto 7; discriminate).
  destruct (py_add_int (default (PyInt 0) (dict_lookup (str_value item) d))
              (int_value qty)) as [v|e] eqn:Hadd; simpl.
  - destruct (text_ok qty) eqn:Htext; simpl.
    + repeat split; auto 7; congruence.
    + repeat split; auto 7; try congruence. eauto.
  - assert (e = TypeError \/ e = OverflowError) as He.
    { destruct (default (PyInt 0) (dict_lookup (str_value item) d));
        simpl in Hadd; try (injection Hadd as <-; auto; fail);
        try discriminate.
      destruct (float_of_int (int_value qty)); [discriminate|].
      injection Hadd as <-. auto. }
    destruct He as [-> | ->]; repeat split; auto 7; discriminate.
Qed.

(** ** [load_data] and [save_data], what they touch *)

Section Files.
Context `{JsonLib}.

(** X5.  When the file holds a JSON document, [load_data] returns [True]
    and the mapping is the value of the document, whatever the mapping
    was before: nothing of the old mapping is kept.  The log and the
    files are as before, and one line is printed. *)
Theorem load_data_replaces (s : state) (file text : string) (v : pyval) :
  files s !! file = Some (FText text) ->
  json_loads text = Some v ->
  let r := load_data file s in
  fst r = Return true /\
  stock_data (snd r) = v /\
  logs (snd r) = logs s /\
  files (snd r) = files s /\
  console (snd r) = console s ++ [OutLoaded file].
Proof.
  intros Hf Hv. unfold load_data, open_read. run_m.
  rewrite Hf. simpl. rewrite Hv. simpl. auto.
Qed.

(** X6.  [load_data] never changes the files or the log.  An exception
    leaves it only when opening the file raised it and it is no
    [FileNotFoundError], [JSONDecodeError] or [OSError]; the mapping is
    then as it was. *)
Theorem load_data_frame (s : state) (file : string) :
  let r := load_data file s in
  files (snd r) = files s /\
  logs (snd r) = logs s /\
  (forall e,
     fst r = Raise e ->
     files s !! file = Some (FFail e) /\
     exc_isinstance e OSError = false /\
     exc_isinstance e JSONDecodeError = false /\
     stock_data (snd r) = stock_data s).
Proof.
  unfold load_data, open_read. run_m.
  destruct (files s !! file) as [[text|e]|]; simpl.
  - destruct (json_loads text); simpl; repeat split; auto; discriminate.
  - destruct e; simpl; repeat split; auto; try discriminate.
    all: match goal with
         | He : Raise _ = Raise _ |- _ => injection He as <-
         end; reflexivity.
  - repeat split; auto; discriminate.
Qed.

(** X7.  On a path that can be opened for writing, and when [json.dump]
    writes the mapping without raising, [save_data] returns [True]; the
    file then holds the JSON text of the mapping, whatever it held
    before, every other path is as it was, and the mapping and the log
    are not changed. *)
Theorem save_data_overwrites (s : state) (file : string) :
  writable file s = true ->
  json_dump_error (stock_data s) = None ->
  let r := save_data file s in
  fst r = Return true /\
  files (snd r) = <[file := FText (json_dumps (stock_data s))]> (files s) /\
  (forall other, other <> file -> files (snd r) !! other = files s !! other) /\
  stock_data (snd r) = stock_data s /\
  logs (snd r) = logs s.
Proof.
  unfold writable. intros Hw Hdump. save_cases s file;
    try discriminate; try congruence.
  all: rewrite insert_insert_eq; repeat split; auto.
  all: intros other Hne; now rewrite lookup_insert_ne.
Qed.

(** X8.  When the path cannot be opened for writing, [save_data] returns
    [False] and changes nothing: no file, not the mapping, not the
    log. *)
Theorem save_data_failure (s : state) (file : string) (e : exc) :
  files s !! file = Some (FFail e) ->
  open_fails e = true ->
  let r := save_data file s in
  fst r = Return false /\
  files (snd r) = files s /\
  stock_data (snd r) = stock_data s /\
  logs (snd r) = logs s.
Proof.
  intros Hf Hopen. unfold save_data, open_write. run_m.
  rewrite Hf, Hopen. simpl.
  unfold open_fails in Hopen. unfold IOError. rewrite Hopen. simpl. auto.
Qed.

(** X18.  When [json.dump] raises on the mapping, on a path that can be
    opened for writing, [save_data] leaves the file with the text that
    was written before the exception, in place of what the file held;
    the exception leaves [save_data] unless it is an [IOError], for
    which [save_data] returns [False].  The mapping and the log are not
    changed. *)
Theorem save_data_dump_raises (s : state) (file : string) (e : exc) :
  writable file s = true ->
  json_dump_error (stock_data s) = Some e ->
  let r := save_data file s in
  fst r = (if exc_isinstance e IOError then Return false else Raise e) /\
  files (snd r) = <[file := FText (json_dumps (stock_data s))]> (files s) /\
  stock_data (snd r) = stock_data s /\
  logs (snd r) = logs s.
Proof.
  unfold writable. intros Hw Hdump. save_cases s file;
    try discriminate; try congruence.
  all: match goal with
       | Heq : Some _ = Some _ |- _ => injection Heq as ->
       end.
  all: match goal with
       | |- context [exc_isinstance ?x IOError] =>
           destruct (exc_isinstance x IOError)
       end; simpl; rewrite insert_insert_eq; auto.
Qed.

End Files.

(** ** [print_data] *)

Lemma ascii_compare_refl (c : ascii) : Ascii.compare c c = Eq.
Proof. unfold Ascii.compare. apply N.compare_refl. Qed.

Lemma string_compare_le_trans (s1 s2 s3 : string) :
  String.compare s1 s2 <> Gt ->
  String.compare s2 s3 <> Gt ->
  String.compare s1 s3 <> Gt.
Proof.
  revert s2 s3. induction s1 as [|c1 s1 IH]; intros [|c2 s2] [|c3 s3];
    simpl; try congruence.
  destruct (Ascii.compare c1 c2) eqn:E12; try congruence;
    destruct (Ascii.compare c2 c3) eqn:E23; try congruence.
  - apply Ascii.compare_eq_iff in E12, E23. subst.
    rewrite ascii_compare_refl. apply IH.
  - apply Ascii.compare_eq_iff in E12. subst. rewrite E23. congruence.
  - apply Ascii.compare_eq_iff in E23. subst. rewrite E12. congruence.
  - unfold Ascii.compare in *.
    rewrite N.compare_lt_iff in E12, E23.
    assert (N_of_ascii c1 < N_of_ascii c3)%N as Hlt by lia.
    apply N.compare_lt_iff in Hlt. rewrite Hlt. congruence.
Qed.

Lemma key_le_trans (a b c : string * pyval) :
  key_le a b -> key_le b c -> key_le a c.
Proof.
  unfold key_le, String.leb. intros Hab Hbc.
  pose proof (string_compare_le_trans (fst a) (fst b) (fst c)) as Ht.
  destruct (String.compare (fst a) (fst b)); try discriminate;
    destruct (String.compare (fst b) (fst c)); try discriminate;
    destruct (String.compare (fst a) (fst c)); try reflexivity;
    exfalso; apply Ht; congruence.
Qed.

Lemma not_ltb_key_le (a b : string * pyval) :
  String.ltb (fst a) (fst b) = false -> key_le b a.
Proof.
  unfold key_le, String.ltb, String.leb.
  rewrite (String.compare_antisym (fst a) (fst b)).
  now destruct (String.compare (fst b) (fst a)).
Qed.

Lemma ltb_key_le (a b : string * pyval) :
  String.ltb (fst a) (fst b) = true -> key_le a b.
Proof.
  unfold key_le, String.ltb, String.leb.
  now destruct (String.compare (fst a) (fst b)).
Qed.

Lemma insert_sorted_perm kv l : insert_sorted kv l ≡ₚ kv :: l.
Proof.
  induction l as [|kv' l IH]; simpl; [reflexivity|].
  destruct (String.ltb (fst kv) (fst kv')); [reflexivity|].
  rewrite IH. apply Permutation_swap.
Qed.

Lemma insert_sorted_sorted kv l :
  Sorted key_le l -> Sorted key_le (insert_sorted kv l).
Proof.
  induction 1 as [|kv' l Hl IH Hhd]; simpl.
  - repeat constructor.
  - destruct (String.ltb (fst kv) (fst kv')) eqn:E.
    + constructor; [now constructor|]. constructor. now apply ltb_key_le.
    + constructor; [assumption|].
      destruct Hhd as [|kv'' l' Hle]; simpl.
      * constructor. now apply not_ltb_key_le.
      * destruct (String.ltb (fst kv) (fst kv'')); constructor;
          [now apply not_ltb_key_le | assumption].
Qed.

Lemma sorted_items_acc (d acc : pydict) :
  Sorted key_le acc ->
  Sorted key_le (fold_left (fun acc kv => insert_sorted kv acc) d acc) /\
  fold_left (fun acc kv => insert_sorted kv acc) d acc ≡ₚ d ++ acc.
Proof.
  revert acc. induction d as [|kv d IH]; intros acc Hacc; simpl.
  - split; [assumption|reflexivity].
  - destruct (IH (insert_sorted kv acc)) as [Hs Hp];
      [now apply insert_sorted_sorted|].
    split; [assumption|].
    rewrite Hp, insert_sorted_perm. symmetry. apply Permutation_middle.
Qed.

Lemma print_report_lines_frame items s :
  logs (snd (print_report_lines items s)) = logs s /\
  files (snd (print_report_lines items s)) = files s.
Proof.
  revert s. induction items as [|[item qty] items IH]; intros s; simpl;
    [auto|].
  run_m. destruct (format_report_line item qty) as [line|e]; simpl;
    [|auto].
  specialize (IH (set_console (console s ++ [line]) s)).
  destruct (print_report_lines items _) as [[[]|e] s']; exact IH.
Qed.

Lemma print_report_lines_console items s :
  forallb (fun kv => printable (snd kv)) items = true ->
  fst (print_report_lines items s) = Return tt /\
  console (snd (print_report_lines items s))
    = console s ++ report_lines items.
Proof.
  revert s. induction items as [|[item qty] items IH]; intros s Hp; simpl.
  - now rewrite app_nil_r.
  - simpl in Hp. apply andb_true_iff in Hp as [Hq Hp].
    run_m.
    assert (format_report_line item qty = Return (OutReportLine item qty))
      as ->.
    { destruct qty; simpl in *; try discriminate; try reflexivity.
      now rewrite Hq. }
    simpl.
    specialize (IH (set_console (console s ++ [OutReportLine item qty]) s) Hp).
    destruct (print_report_lines items _) as [[[]|e] s']; simpl in *;
      destruct IH as [Hr Hc]; [|discriminate].
    split; [reflexivity|]. rewrite Hc. now rewrite <- app_assoc.
Qed.

(** X9.  On a mapping that is a [dict] with at least one entry and with
    values that a width can format (numbers, booleans and texts, the
    integers of at most 4300 digits), [print_data] returns and prints the
    three lines of the header, then one line for each entry of the
    mapping, in ascending order of the item names, then the closing
    line. *)
Theorem print_data_report (s : state) (d : pydict) :
  stock_data s = PyDict d ->
  d <> [] ->
  forallb (fun kv => printable (snd kv)) d = true ->
  exists items,
    fst (print_data s) = Return tt /\
    console (snd (print_data s))
      = console s ++ [OutRuleTop; OutItemsReport; OutRule]
          ++ report_lines items ++ [OutRuleBottom] /\
    items ≡ₚ d /\
    StronglySorted key_le items.
Proof.
  intros Hsd Hne Hp. exists (sorted_items d).
  destruct (sorted_items_acc d []) as [Hsorted Hperm]; [constructor|].
  rewrite app_nil_r in Hperm. fold (sorted_items d) in Hsorted, Hperm.
  assert (forallb (fun kv => printable (snd kv)) (sorted_items d) = true)
    as Hps.
  { rewrite forallb_forall in *. intros kv Hin. apply Hp.
    apply list_elem_of_In. rewrite <- Hperm. now apply list_elem_of_In. }
  unfold print_data. run_m. rewrite Hsd. simpl.
  destruct d as [|kv d]; [congruence|]. simpl.
  match goal with
  | |- context [print_report_lines ?l ?s0] =>
      destruct (print_report_lines_console l s0 Hps) as [Hr Hc];
      destruct (print_report_lines l s0) as [[[]|e] s']
  end; simpl in *; [|discriminate].
  split; [reflexivity|]. split.
  - rewrite Hc. simpl. rewrite <- !app_assoc. reflexivity.
  - split; [assumption|].
    apply Sorted_StronglySorted; [|assumption].
    intros a b c. apply key_le_trans.
Qed.

(** X10.  On a mapping that counts as false ([{}], and also [None], [0],
    an empty text or an empty list, which [load_data] can leave),
    [print_data] returns and prints the header, the line that says the
    inventory is empty, and the closing line. *)
Theorem print_data_empty (s : state) :
  truthy (stock_data s) = false ->
  fst (print_data s) = Return tt /\
  console (snd (print_data s))
    = console s ++ [OutRuleTop; OutItemsReport; OutRule;
                    OutInventoryEmpty; OutRuleBottom].
Proof.
  intros Hf. unfold print_data. run_m. rewrite Hf. simpl.
  split; [reflexivity|]. now rewrite <- !app_assoc.
Qed.

(** ** How the calls compose *)

Lemma dict_del_absent k d : dict_lookup k d = None -> dict_del k d = d.
Proof.
  induction d as [|[k' v'] d IH]; simpl; [reflexivity|].
  destruct (String.eqb k k'); [discriminate|].
  intros Hl. now rewrite IH.
Qed.

Lemma dict_del_set k v d : dict_del k (dict_set k v d) = dict_del k d.
Proof.
  induction d as [|[k' v'] d IH]; simpl.
  - now rewrite eqb_name_refl.
  - destruct (String.eqb k k') eqn:E; simpl.
    + now rewrite eqb_name_refl.
    + now rewrite E, IH.
Qed.

Lemma dict_set_set k v v' d : dict_set k v (dict_set k v' d) = dict_set k v d.
Proof.
  induction d as [|[k0 v0] d IH]; simpl.
  - now rewrite eqb_name_refl.
  - destruct (String.eqb k k0) eqn:E; simpl.
    + now rewrite eqb_name_refl.
    + now rewrite E, IH.
Qed.

Lemma dict_set_same k v d : dict_lookup k d = Some v -> dict_set k v d = d.
Proof.
  induction d as [|[k0 v0] d IH]; simpl; [discriminate|].
  destruct (String.eqb k k0) eqn:E.
  - apply String.eqb_eq in E. intros [= ->]. now subst.
  - intros Hl. now rewrite IH.
Qed.

Lemma dict_keys_set k v d :
  dict_keys (dict_set k v d) =
    match dict_lookup k d with
    | Some _ => dict_keys d
    | None => dict_keys d ++ [k]
    end.
Proof.
  unfold dict_keys. induction d as [|[k0 v0] d IH]; simpl; [reflexivity|].
  destruct (String.eqb k k0) eqn:E; simpl.
  - apply String.eqb_eq in E. now subst.
  - rewrite IH. now destruct (dict_lookup k d).
Qed.

(** The result of an [add_item] with valid arguments: the mapping is
    updated, and the call returns [True] when the quantity can be
    written in the log message. *)
Lemma add_item_valid_state s d name qty now :
  stock_data s = PyDict d ->
  name <> EmptyString ->
  0 < qty ->
  (forall v, dict_lookup name d = Some v -> isinstance_int v = true) ->
  stock_data (snd (add_item (PyStr name) (PyInt qty) now s))
    = PyDict (dict_set name (PyInt (quantity_of d name + qty)) d) /\
  (int_text_ok qty = true ->
   fst (add_item (PyStr name) (PyInt qty) now s) = Return true).
Proof.
  intros Hsd Hname Hqty Hint. unfold add_item.
  rewrite add_item_guard_item, add_item_guard_qty.
  unfold is_positive_int_instance. simpl.
  rewrite (eqb_name_ne name EmptyString Hname).
  destruct (Z.ltb_spec 0 qty) as [_|]; [|lia]. simpl.
  unfold format_log. run_m. rewrite Hsd. simpl.
  assert (default (PyInt 0) (dict_lookup name d)
          = PyInt (quantity_of d name) \/
          exists b, default (PyInt 0) (dict_lookup name d) = PyBool b /\
                    quantity_of d name = Z.b2z b) as Hold.
  { unfold quantity_of, int_value.
    destruct (dict_lookup name d) as [v|] eqn:Hl; simpl; [|now left].
    specialize (Hint v eq_refl).
    destruct v; try discriminate; simpl; [right; eauto | now left]. }
  destruct Hold as [-> | [b [-> ->]]]; simpl;
    destruct (int_text_ok qty); simpl; split; auto; discriminate.
Qed.

(** The mapping after a [remove_item] of an item with an integer. *)
Lemma remove_item_valid_state s d name z qty :
  stock_data s = PyDict d ->
  dict_lookup name d = Some (PyInt z) ->
  0 < qty ->
  fst (remove_item (PyStr name) (PyInt qty) s) = Return true /\
  stock_data (snd (remove_item (PyStr name) (PyInt qty) s)) =
    PyDict (if z - qty <=? 0 then dict_del name d
            else dict_set name (PyInt (z - qty)) d).
Proof.
  intros Hsd Hl Hqty. unfold remove_item. simpl.
  unfold int_value. simpl.
  destruct (Z.leb_spec qty 0) as [|_]; [lia|].
  run_m. rewrite Hsd. simpl. rewrite Hl. simpl.
  rewrite dict_lookup_set_eq. simpl.
  destruct (z - qty <=? 0); simpl; [|auto].
  now rewrite dict_del_set.
Qed.

(** X11.  After an [add_item] with a non-empty name and a positive
    integer, [get_qty] of that name returns the integer that was stored
    before, 0 when there was no entry, plus the quantity added. *)
Theorem add_then_get_qty (s : state) (d : pydict) (name : string)
    (qty : Z) (now : datetime) :
  stock_data s = PyDict d ->
  name <> EmptyString ->
  0 < qty ->
  (forall v, dict_lookup name d = Some v -> isinstance_int v = true) ->
  fst (get_qty (PyStr name) (snd (add_item (PyStr name) (PyInt qty) now s)))
    = Return (PyInt (quantity_of d name + qty)).
Proof.
  intros Hsd Hname Hqty Hint.
  destruct (add_item_valid_state s d name qty now Hsd Hname Hqty Hint)
    as [Hstock _].
  unfold get_qty. simpl. run_m. rewrite Hstock. simpl.
  now rewrite dict_lookup_set_eq.
Qed.

(** X12.  An [add_item] followed by a [remove_item] of the same name and
    quantity gives back the mapping as it was, entries and order, when
    the name had no entry or a positive integer.  The [remove_item]
    returns [True], and so does the [add_item] when the quantity has at
    most 4300 digits; with more digits it raises after the quantity is
    added, and the [remove_item] still takes the quantity back. *)
Theorem add_then_remove_restores (s : state) (d : pydict) (name : string)
    (qty : Z) (now : datetime) :
  stock_data s = PyDict d ->
  name <> EmptyString ->
  0 < qty ->
  (forall v, dict_lookup name d = Some v -> exists z, v = PyInt z /\ 0 < z) ->
  let s1 := snd (add_item (PyStr name) (PyInt qty) now s) in
  let r := remove_item (PyStr name) (PyInt qty) s1 in
  (int_text_ok qty = true ->
   fst (add_item (PyStr name) (PyInt qty) now s) = Return true) /\
  fst r = Return true /\
  stock_data (snd r) = PyDict d.
Proof.
  intros Hsd Hname Hqty Hpos.
  assert (forall v, dict_lookup name d = Some v -> isinstance_int v = true)
    as Hint.
  { intros v Hv. destruct (Hpos v Hv) as [z [-> _]]. reflexivity. }
  destruct (add_item_valid_state s d name qty now Hsd Hname Hqty Hint)
    as [Hstock Hret].
  intros s1 r. split; [exact Hret|].
  destruct (remove_item_valid_state s1
              (dict_set name (PyInt (quantity_of d name + qty)) d)
              name (quantity_of d name + qty) qty) as [Hr Hs];
    [exact Hstock | apply dict_lookup_set_eq | assumption |].
  split; [assumption|]. unfold r. rewrite Hs. f_equal.
  unfold quantity_of.
  destruct (dict_lookup name d) as [v|] eqn:Hl.
  - destruct (Hpos v eq_refl) as [z [-> Hz]]. unfold int_value. simpl.
    destruct (Z.leb_spec (z + qty - qty) 0) as [|_]; [lia|].
    rewrite dict_set_set.
    replace (z + qty - qty) with z by lia. now apply dict_set_same.
  - destruct (Z.leb_spec (0 + qty - qty) 0) as [_|]; [|lia].
    rewrite dict_del_set. now apply dict_del_absent.
Qed.

(** X13.  [add_item] keeps the order of the mapping: an item that has an
    entry keeps its place, and a new item goes after all the others. *)
Theorem add_item_keeps_order (s : state) (d : pydict) (name : string)
    (qty : Z) (now : datetime) :
  stock_data s = PyDict d ->
  name <> EmptyString ->
  0 < qty ->
  (forall v, dict_lookup name d = Some v -> isinstance_int v = true) ->
  exists d',
    stock_data (snd (add_item (PyStr name) (PyInt qty) now s)) = PyDict d' /\
    dict_keys d' =
      match dict_lookup name d with
      | Some _ => dict_keys d
      | None => dict_keys d ++ [name]
      end.
Proof.
  intros Hsd Hname Hqty Hint.
  destruct (add_item_valid_state s d name qty now Hsd Hname Hqty Hint)
    as [Hstock _].
  eexists. split; [exact Hstock|]. apply dict_keys_set.
Qed.

(** ** The log and the files along a sequence of calls *)

Lemma add_item_log s item qty now :
  let r := add_item item qty now s in
  files (snd r) = files s /\
  (logs (snd r) = logs s \/
   exists m, valid_log_entry m /\ logs (snd r) = logs s ++ [m]).
Proof.
  unfold add_item. rewrite add_item_guard_item, add_item_guard_qty.
  destruct (is_nonempty_text item) eqn:Hitem; simpl; [|run_m; auto].
  destruct (is_positive_int_instance qty) eqn:Hqty; simpl; [|run_m; auto].
  run_m.
  destruct (py_get (stock_data s) (str_value item) (PyInt 0)) as [old|];
    simpl; [|auto].
  destruct (py_add_int old (int_value qty)) as [new|]; simpl; [|auto].
  destruct (py_setitem (stock_data s) (str_value item) new) as [sd|];
    simpl; [|auto].
  unfold format_log. destruct (text_ok qty); simpl; [|auto].
  split; [reflexivity|]. right. eexists. split; [|reflexivity].
  split; [|exact Hqty]. simpl.
  destruct item; simpl in *; try discriminate.
  intros ->. discriminate.
Qed.

Lemma remove_item_frame s item qty :
  logs (snd (remove_item item qty s)) = logs s /\
  files (snd (remove_item item qty s)) = files s.
Proof.
  unfold remove_item.
  destruct (negb (isinstance_str item) || negb (isinstance_int qty));
    [run_m; auto|].
  destruct (int_value qty <=? 0); [run_m; auto|].
  run_m.
  destruct (py_contains (stock_data s) (str_value item)) as [[|]|[]];
    simpl; auto.
  destruct (py_getitem (stock_data s) (str_value item)) as [old|[]];
    simpl; auto.
  destruct (py_sub_int old (int_value qty)) as [new|[]]; simpl; auto.
  destruct (py_setitem (stock_data s) (str_value item) new) as [sd|[]];
    simpl; auto.
  destruct (py_getitem sd (str_value item)) as [cur|[]]; simpl; auto.
  destruct (py_le_int cur 0) as [[|]|[]]; simpl; auto.
  destruct (py_delitem sd (str_value item)) as [sd2|[]]; simpl; auto.
Qed.

Lemma get_qty_frame s item :
  logs (snd (get_qty item s)) = logs s /\
  files (snd (get_qty item s)) = files s.
Proof.
  unfold get_qty. destruct (negb (isinstance_str item)); run_m; [auto|].
  now destruct (py_get (stock_data s) (str_value item) (PyInt 0)).
Qed.

Lemma check_low_items_frame s threshold :
  logs (snd (check_low_items threshold s)) = logs s /\
  files (snd (check_low_items threshold s)) = files s.
Proof.
  unfold check_low_items.
  destruct (negb (isinstance_int threshold) || (int_value threshold <? 0));
    run_m; [auto|].
  destruct (py_items (stock_data s)) as [items|]; simpl; auto.
Qed.

Lemma print_data_frame s :
  logs (snd (print_data s)) = logs s /\
  files (snd (print_data s)) = files s.
Proof.
  unfold print_data. run_m.
  destruct (negb (truthy (stock_data s))); simpl; [auto|].
  destruct (py_items (stock_data s)) as [items|]; simpl; [|auto].
  match goal with
  | |- context [print_report_lines ?l ?s0] =>
      pose proof (print_report_lines_frame l s0) as Hp;
      destruct (print_report_lines l s0) as [[[]|e] s']
  end; simpl in *; exact Hp.
Qed.

Section Runs.
Context `{JsonLib}.

Lemma load_data_logs_files s file :
  logs (snd (load_data file s)) = logs s /\
  files (snd (load_data file s)) = files s.
Proof.
  unfold load_data, open_read. run_m.
  destruct (files s !! file) as [[text|e]|]; simpl; auto.
  - destruct (json_loads text); simpl; auto.
  - destruct e; simpl; auto.
Qed.

Lemma save_data_logs s file : logs (snd (save_data file s)) = logs s.
Proof.
  save_cases s file; try reflexivity.
  all: match goal with
       | |- context [exc_isinstance ?x IOError] =>
           destruct (exc_isinstance x IOError); reflexivity
       end.
Qed.

Lemma call_logs (o : op) (s : state) :
  logs (snd (call o s)) = logs s \/
  (is_add o = true /\
   exists m, valid_log_entry m /\ logs (snd (call o s)) = logs s ++ [m]).
Proof.
  destruct o; simpl; unfold bind, ret.
  - destruct (add_item_log s item qty now) as [_ Hl].
    destruct (add_item item qty now s) as [[b|e] s']; simpl in *;
      (destruct Hl as [Hl|Hl]; [now left | right; now split]).
  - destruct (remove_item_frame s item qty) as [Hl _].
    destruct (remove_item item qty s) as [[b|e] s']; now left.
  - left. apply get_qty_frame.
  - destruct (load_data_logs_files s file) as [Hl _].
    destruct (load_data file s) as [[b|e] s']; now left.
  - pose proof (save_data_logs s file) as Hl.
    destruct (save_data file s) as [[b|e] s']; now left.
  - destruct (print_data_frame s) as [Hl _].
    destruct (print_data s) as [[b|e] s']; now left.
  - destruct (check_low_items_frame s threshold) as [Hl _].
    destruct (check_low_items threshold s) as [[b|e] s']; now left.
Qed.

Lemma call_files (o : op) (s : state) :
  is_save o = false -> files (snd (call o s)) = files s.
Proof.
  destruct o; simpl; unfold bind, ret; intros Hsave; try discriminate.
  - destruct (add_item_log s item qty now) as [Hf _].
    now destruct (add_item item qty now s) as [[b|e] s'].
  - destruct (remove_item_frame s item qty) as [_ Hf].
    now destruct (remove_item item qty s) as [[b|e] s'].
  - apply get_qty_frame.
  - destruct (load_data_logs_files s file) as [_ Hf].
    now destruct (load_data file s) as [[b|e] s'].
  - destruct (print_data_frame s) as [_ Hf].
    now destruct (print_data s) as [[b|e] s'].
  - destruct (check_low_items_frame s threshold) as [_ Hf].
    now destruct (check_low_items threshold s) as [[b|e] s'].
Qed.

(** X14.  The log only grows: after any sequence of calls, in any state
    and also when calls raise, the log is the log of before followed by
    new entries; there are at most as many new entries as [add_item]
    calls, and each has a non-empty item and a positive quantity.  No
    method removes or rewrites an entry. *)
Theorem run_log_grows (ops : list op) (s : state) :
  exists added,
    logs (run ops s) = logs s ++ added /\
    Forall valid_log_entry added /\
    (length added <= length (List.filter is_add ops))%nat.
Proof.
  revert s. induction ops as [|o ops IH]; intros s; simpl.
  - exists []. rewrite app_nil_r. repeat split; auto.
  - destruct (IH (snd (call o s))) as [added [Hl [Hv Hn]]].
    destruct (call_logs o s) as [Ho|[Hadd [m [Hm Ho]]]].
    + exists added. rewrite Hl, Ho. repeat split; auto.
      destruct (is_add o); simpl; lia.
    + exists (m :: added). rewrite Hl, Ho, <- app_assoc. rewrite Hadd.
      repeat split; simpl; auto. lia.
Qed.

(** X15.  Only [save_data] writes: after any sequence of calls without a
    [save_data], in any state and also when calls raise, the files are
    as they were; [load_data] in particular never changes the file that
    it reads. *)
Theorem run_files_unchanged (ops : list op) (s : state) :
  forallb (fun o => negb (is_save o)) ops = true ->
  files (run ops s) = files s.
Proof.
  revert s. induction ops as [|o ops IH]; intros s; simpl; [reflexivity|].
  intros Hops. apply andb_true_iff in Hops as [Ho Hops].
  rewrite IH by assumption. apply call_files.
  now destruct (is_save o).
Qed.

End Runs.

(** ** [check_low_items], the threshold *)

(** X16.  On a mapping with integer values, an item that
    [check_low_items] reports for a threshold is reported for every
    greater threshold. *)
Theorem check_low_items_monotone (s : state) (d : pydict) (t1 t2 : Z) :
  stock_data s = PyDict d ->
  integer_values d ->
  0 <= t1 <= t2 ->
  exists l1 l2,
    fst (check_low_items (PyInt t1) s) = Return l1 /\
    fst (check_low_items (PyInt t2) s) = Return l2 /\
    forall k, k ∈ l1 -> k ∈ l2.
Proof.
  intros Hsd Hint Ht.
  exists (low_items d t1), (low_items d t2).
  unfold check_low_items, int_value. simpl.
  destruct (Z.ltb_spec t1 0) as [|_]; [lia|].
  destruct (Z.ltb_spec t2 0) as [|_]; [lia|].
  run_m. rewrite Hsd. simpl.
  rewrite !low_items_loop_integers by assumption. simpl.
  split; [reflexivity|]. split; [reflexivity|].
  intros k Hk. apply elem_of_low_items in Hk as [z [Hin Hz]]; [|assumption].
  apply elem_of_low_items; [assumption|]. exists z. split; [assumption|lia].
Qed.

(** ** The methods that only read *)

(** X17.  [get_qty], [check_low_items] and [print_data] leave the
    mapping, the log and the files as they were, for every state and
    every argument, also when they raise. *)
Theorem read_methods_read_only (s : state) (item threshold : pyval) :
  (stock_data (snd (get_qty item s)) = stock_data s /\
   logs (snd (get_qty item s)) = logs s /\
   files (snd (get_qty item s)) = files s) /\
  (stock_data (snd (check_low_items threshold s)) = stock_data s /\
   logs (snd (check_low_items threshold s)) = logs s /\
   files (snd (check_low_items threshold s)) = files s) /\
  (stock_data (snd (print_data s)) = stock_data s /\
   logs (snd (print_data s)) = logs s /\
   files (snd (print_data s)) = files s).
Proof.
  repeat split.
  - apply get_qty_stock.
  - apply get_qty_frame.
  - apply get_qty_frame.
  - apply check_low_items_stock.
  - apply check_low_items_frame.
  - apply check_low_items_frame.
  - apply print_data_stock.
  - apply print_data_frame.
  - apply print_data_frame.
Qed.

(** * Instances of the further properties *)

Section MoreInstances.
Import Examples MoreExamples.

Lemma apples_bananas_integers :
  integer_values [("apple", PyInt 7); ("banana", PyInt 3)].
Proof.
  intros k v Hin.
  apply elem_of_cons in Hin as [[= -> ->]|Hin]; [eauto|].
  apply elem_of_cons in Hin as [[= -> ->]|Hin]; [eauto|].
  now apply elem_of_nil in Hin.
Qed.

Lemma get_qty_reads_witness :
  fst (get_qty (PyInt 3) ten_apples) = Return (PyInt 0) /\
  (fst (get_qty (PyStr "apple") ten_apples) = Return (PyInt 10) /\
   console (snd (get_qty (PyStr "apple") ten_apples)) = console ten_apples) /\
  fst (get_qty (PyStr "apple") array_stock) = Raise AttributeError.
Proof.
  split; [|split].
  - apply (proj1 (get_qty_reads ten_apples (PyInt 3))). reflexivity.
  - apply (proj1 (proj2 (get_qty_reads ten_apples (PyStr "apple")))
             [("apple", PyInt 10)] "apple"); reflexivity.
  - apply (proj2 (proj2 (get_qty_reads array_stock (PyStr "apple")))
             "apple"); [|reflexivity].
    intros d. discriminate.
Defined.

Lemma remove_item_rejects_invalid_witness :
  removable_args (PyStr "apple") (PyInt 0) = false /\
  let r := remove_item (PyStr "apple") (PyInt 0) ten_apples in
  fst r = Return false /\
  stock_data (snd r) = stock_data ten_apples /\
  logs (snd r) = logs ten_apples /\
  files (snd r) = files ten_apples.
Proof.
  split; [reflexivity|].
  apply (remove_item_rejects_invalid ten_apples (PyStr "apple") (PyInt 0)).
  reflexivity.
Defined.

Lemma remove_item_failure_unchanged_witness :
  let r := remove_item (PyStr "apple") (PyInt 1) array_stock in
  fst r = Return false /\ stock_data (snd r) = stock_data array_stock.
Proof.
  pose proof (remove_item_failure_unchanged array_stock
                (PyStr "apple") (PyInt 1)) as [_ [_ [_ [Hkeep Hlist]]]].
  assert (fst (remove_item (PyStr "apple") (PyInt 1) array_stock)
          = Return false) as Hfalse.
  { apply Hlist. intros d. discriminate. }
  split; [exact Hfalse|].
  apply Hkeep. rewrite Hfalse. discriminate.
Defined.

Lemma add_item_failures_witness :
  (let r := add_item (PyStr "apple") (PyInt 1) 1 array_stock in
   logs (snd r) = logs array_stock /\
   stock_data (snd r) = stock_data array_stock) /\
  (let r := add_item (PyStr "apple") (PyInt int_text_limit) 1 ten_apples in
   text_ok (PyInt int_text_limit) = false /\
   exists d v,
     stock_data ten_apples = PyDict d /\
     py_add_int (default (PyInt 0) (dict_lookup "apple" d)) int_text_limit
       = Return v /\
     stock_data (snd r) = PyDict (dict_set "apple" v d)).
Proof.
  split.
  - pose proof (add_item_failures array_stock (PyStr "apple") (PyInt 1) 1)
      as [_ [_ [Hlogs [Hstock _]]]].
    split.
    + apply Hlogs. vm_compute. discriminate.
    + apply Hstock; vm_compute; discriminate.
  - apply (proj2 (proj2 (proj2 (proj2
             (add_item_failures ten_apples (PyStr "apple")
                (PyInt int_text_limit) 1))))).
    vm_compute. reflexivity.
Defined.

Lemma load_data_replaces_witness :
  let r := load_data default_file
             (set_files (one_file zero_text) ten_apples) in
  fst r = Return true /\
  stock_data (snd r) = PyDict [("apple", PyInt 0)] /\
  logs (snd r) = logs ten_apples /\
  files (snd r) = one_file zero_text /\
  console (snd r) = console ten_apples ++ [OutLoaded default_file].
Proof.
  apply (load_data_replaces (set_files (one_file zero_text) ten_apples)
           default_file zero_text (PyDict [("apple", PyInt 0)])).
  - reflexivity.
  - vm_compute. reflexivity.
Defined.

Lemma load_data_frame_witness :
  let s := set_files undecodable_file ten_apples in
  fst (load_data default_file s) = Raise UnicodeDecodeError /\
  files s !! default_file = Some (FFail UnicodeDecodeError) /\
  exc_isinstance UnicodeDecodeError OSError = false /\
  exc_isinstance UnicodeDecodeError JSONDecodeError = false /\
  stock_data (snd (load_data default_file s)) = stock_data s.
Proof.
  intros s.
  assert (fst (load_data default_file s) = Raise UnicodeDecodeError)
    as Hraise by (vm_compute; reflexivity).
  split; [exact Hraise|].
  apply (proj2 (proj2 (load_data_frame s default_file))
           UnicodeDecodeError Hraise).
Defined.

Lemma save_data_overwrites_witness :
  let s := set_files (one_file broken_text) ten_apples in
  let r := save_data default_file s in
  fst r = Return true /\
  files (snd r)
    = <[default_file := FText (json_dumps (stock_data s))]> (files s) /\
  (forall other,
     other <> default_file -> files (snd r) !! other = files s !! other) /\
  stock_data (snd r) = stock_data s /\
  logs (snd r) = logs s.
Proof.
  apply (save_data_overwrites (set_files (one_file broken_text) ten_apples)
           default_file).
  - reflexivity.
  - vm_compute. reflexivity.
Defined.

Lemma save_data_failure_witness :
  let s := set_files locked_file ten_apples in
  let r := save_data default_file s in
  fst r = Return false /\
  files (snd r) = files s /\
  stock_data (snd r) = stock_data s /\
  logs (snd r) = logs s.
Proof.
  apply (save_data_failure (set_files locked_file ten_apples)
           default_file PermissionError).
  - reflexivity.
  - reflexivity.
Defined.

Lemma save_data_dump_raises_witness :
  let s := set_files undecodable_file long_quantity in
  let r := save_data default_file s in
  fst r = (if exc_isinstance ValueError IOError
           then Return false else Raise ValueError) /\
  files (snd r)
    = <[default_file := FText (json_dumps (stock_data s))]> (files s) /\
  stock_data (snd r) = stock_data s /\
  logs (snd r) = logs s.
Proof.
  apply (save_data_dump_raises (set_files undecodable_file long_quantity)
           default_file ValueError).
  - reflexivity.
  - vm_compute. reflexivity.
Defined.

Lemma print_data_report_witness :
  exists items,
    fst (print_data apples_bananas) = Return tt /\
    console (snd (print_data apples_bananas))
      = console apples_bananas ++ [OutRuleTop; OutItemsReport; OutRule]
          ++ report_lines items ++ [OutRuleBottom] /\
    items ≡ₚ [("apple", PyInt 7); ("banana", PyInt 3)] /\
    StronglySorted key_le items.
Proof.
  apply (print_data_report apples_bananas
           [("apple", PyInt 7); ("banana", PyInt 3)]).
  - reflexivity.
  - discriminate.
  - reflexivity.
Defined.

Lemma print_data_empty_witness :
  fst (print_data array_stock) = Return tt /\
  console (snd (print_data array_stock))
    = console array_stock ++ [OutRuleTop; OutItemsReport; OutRule;
                              OutInventoryEmpty; OutRuleBottom].
Proof. apply (print_data_empty array_stock). reflexivity. Defined.

Lemma add_then_get_qty_witness :
  fst (get_qty (PyStr "apple")
         (snd (add_item (PyStr "apple") (PyInt 5) 1 ten_apples)))
    = Return (PyInt (quantity_of [("apple", PyInt 10)] "apple" + 5)).
Proof.
  apply (add_then_get_qty ten_apples [("apple", PyInt 10)] "apple" 5 1).
  - reflexivity.
  - discriminate.
  - lia.
  - simpl. intros v [= <-]. reflexivity.
Defined.

Lemma add_then_remove_restores_witness :
  let s1 := snd (add_item (PyStr "pear") (PyInt 4) 1 apples_bananas) in
  let r := remove_item (PyStr "pear") (PyInt 4) s1 in
  fst (add_item (PyStr "pear") (PyInt 4) 1 apples_bananas) = Return true /\
  fst r = Return true /\
  stock_data (snd r) = PyDict [("apple", PyInt 7); ("banana", PyInt 3)].
Proof.
  destruct (add_then_remove_restores apples_bananas
              [("apple", PyInt 7); ("banana", PyInt 3)] "pear" 4 1)
    as [Hadd Hrest].
  - reflexivity.
  - discriminate.
  - lia.
  - simpl. discriminate.
  - split; [|exact Hrest]. apply Hadd. vm_compute. reflexivity.
Defined.

Lemma add_item_keeps_order_witness :
  exists d',
    stock_data (snd (add_item (PyStr "apple") (PyInt 1) 1 apples_bananas))
      = PyDict d' /\
    dict_keys d' =
      match dict_lookup "apple" [("apple", PyInt 7); ("banana", PyInt 3)] with
      | Some _ => dict_keys [("apple", PyInt 7); ("banana", PyInt 3)]
      | None => dict_keys [("apple", PyInt 7); ("banana", PyInt 3)] ++ ["apple"]
      end.
Proof.
  apply (add_item_keeps_order apples_bananas
           [("apple", PyInt 7); ("banana", PyInt 3)] "apple" 1 1).
  - reflexivity.
  - discriminate.
  - lia.
  - simpl. intros v [= <-]. reflexivity.
Defined.

Lemma run_files_unchanged_witness :
  files (run reading_calls (set_files (one_file zero_text) ten_apples))
    = one_file zero_text.
Proof.
  apply (run_files_unchanged reading_calls
           (set_files (one_file zero_text) ten_apples)).
  reflexivity.
Defined.

Lemma check_low_items_monotone_witness :
  exists l1 l2,
    fst (check_low_items (PyInt 5) apples_bananas) = Return l1 /\
    fst (check_low_items (PyInt 8) apples_bananas) = Return l2 /\
    forall k, k ∈ l1 -> k ∈ l2.
Proof.
  apply (check_low_items_monotone apples_bananas
           [("apple", PyInt 7); ("banana", PyInt 3)] 5 8).
  - reflexivity.
  - exact apples_bananas_integers.
  - lia.
Defined.

End MoreInstances.
